(** * llm_engineering: a shallow embedding of the tutorial scripts

    The repository is five Python scripts (hello_world, openai_client,
    multi_provider_llm, token_tracking, web_scraper).  Each one reads an API
    key from the environment, builds an OpenAI-compatible client, issues chat
    completion requests and prints or returns the first choice's content.

    The scripts are embedded as programs of a small state-and-exception
    monad over a [World] (process environment, contents of the .env file,
    and the trace of externally visible actions).  Third-party libraries
    (openai, requests, bs4, tiktoken, subprocess, ...) are not part of the
    repository: they are taken as a record of oracles, [Library], and every
    theorem is universally quantified over it.

    A Python [str] is a [string]: one character of the model stands for one
    character of the Python string, so [String.length] is [len] and
    [substring 0 n] is the slice [[:n]]. *)

From Stdlib Require Import ZArith String Ascii List DecimalString.
From stdpp Require Import base option list strings gmap.

Open Scope string_scope.

(** ** Python values the scripts handle *)

(** A message dictionary [{"role": r, "content": c}]. *)
Record Message := { role : string; content : string }.

(** The response object of [chat.completions.create], as far as the scripts
    read it: [response.choices[i].message.content] and [response.usage]. *)
Record ChatCompletionMessage := { msg_content : option string }.
Record Choice := { message : ChatCompletionMessage }.
Record CompletionUsage :=
  { prompt_tokens : Z; completion_tokens : Z; total_tokens : Z }.
Record ChatCompletion :=
  { choices : list Choice; usage : option CompletionUsage }.

(** The keyword arguments given to [OpenAI(...)]; [None] is an omitted
    argument. *)
Record Client := { api_key : option string; base_url : option string }.

(** Exceptions.  The scripts raise none themselves; they come from indexing,
    from operators applied to [None], and from library calls. *)
Inductive exn :=
| TypeError
| IndexError
| CalledProcessError (returncode : Z)
| LibraryError (what : string).

Inductive result (A : Type) :=
| Ok (a : A)
| Raise (e : exn).
Arguments Ok {A} a.
Arguments Raise {A} e.

(** ** The world and the trace of actions *)

Inductive Event :=
| EvPrint (line : string)
| EvOpenAI (c : Client)
| EvChat (c : Client) (model : string) (messages : list Message)
| EvGet (url : string) (hdrs : list (string * string))
| EvRun (argv : list string) (check : bool)
| EvGenai (model : string) (contents : string)
| EvAnthropic (model : string) (messages : list Message) (max_tokens : Z).

Record World :=
  { environ : gmap string string;
    dotenv_file : gmap string string;
    trace : list Event }.

Definition emit (e : Event) (w : World) : World :=
  {| environ := environ w; dotenv_file := dotenv_file w;
     trace := trace w ++ [e] |}.

(** ** The monad of script programs *)

Definition M (A : Type) : Type := World -> result A * World.

#[global] Instance M_ret : MRet M := fun A a w => (Ok a, w).

#[global] Instance M_bind : MBind M := fun A B f m w =>
  match m w with
  | (Ok a, w') => f a w'
  | (Raise e, w') => (Raise e, w')
  end.

Definition raise {A} (e : exn) : M A := fun w => (Raise e, w).

Definition lift {A} (r : result A) : M A := fun w => (r, w).

(** [try: body except Exception as e: handler(e)] *)
Definition try_except {A} (body : M A) (handler : exn -> M A) : M A := fun w =>
  match body w with
  | (Ok a, w') => (Ok a, w')
  | (Raise e, w') => handler e w'
  end.

(** ** tiktoken *)

(** An encoding object.  [encode] may raise (tiktoken rejects text that
    holds a special token). *)
Record Encoding := { encode : string -> result (list Z) }.

(** ** The third-party libraries, as oracles

    Every oracle sees the world at the moment of the call, so a backend may
    answer the same request differently at different times. *)
Record Library := {
  (* the OpenAI constructor: [Some e] when it raises [e] *)
  OpenAI_init : World -> Client -> option exn;
  (* client.chat.completions.create(model=, messages=) *)
  chat_completions_create :
    World -> Client -> string -> list Message -> result ChatCompletion;
  (* requests.get(url, headers=).content *)
  requests_get : World -> string -> list (string * string) -> result string;
  (* subprocess.run(argv): the return code, or the exception of a failed spawn *)
  subprocess_run : World -> list string -> result Z;
  (* tiktoken.encoding_for_model(name) *)
  encoding_for_model : string -> result Encoding;
  (* genai.Client().models.generate_content(model=, contents=).text *)
  genai_generate_content : World -> string -> string -> result (option string);
  (* Anthropic().messages.create(...).content, the text of each block *)
  anthropic_messages_create :
    World -> string -> list Message -> Z -> result (list string);
  (* bs4: the parsed document and its tags are handles into the library *)
  Soup : Type;
  Tag : Type;
  BeautifulSoup : string -> string -> Soup;
  soup_title : Soup -> option Tag;
  soup_body : Soup -> option Tag;
  tag_string : Soup -> Tag -> option string;
  find_all : Soup -> Tag -> list string -> list Tag;
  decompose : Soup -> Tag -> Soup;
  get_text : Soup -> Tag -> string -> bool -> string
}.

(** ** Primitive actions *)

Definition print (s : string) : M unit := fun w => (Ok tt, emit (EvPrint s) w).

Definition getenv (name : string) : M (option string) :=
  fun w => (Ok (environ w !! name), w).

(** [load_dotenv(override=True)]: every variable of the .env file is written
    into the environment, replacing a value already there. *)
Definition load_dotenv_override : M unit := fun w =>
  (Ok tt, {| environ := dotenv_file w ∪ environ w;
             dotenv_file := dotenv_file w; trace := trace w |}).

(** Truth value of an [Optional[str]]: [None] and the empty string are
    false. *)
Definition truthy (v : option string) : bool :=
  match v with
  | Some s => negb (String.eqb s "")
  | None => false
  end.

Definition OpenAI (lib : Library) (c : Client) : M Client := fun w =>
  match OpenAI_init lib w c with
  | Some e => (Raise e, emit (EvOpenAI c) w)
  | None => (Ok c, emit (EvOpenAI c) w)
  end.

Definition create (lib : Library) (c : Client) (model : string)
    (messages : list Message) : M ChatCompletion := fun w =>
  (chat_completions_create lib w c model messages,
   emit (EvChat c model messages) w).

(** [subprocess.run(argv, check=check)] *)
Definition run (lib : Library) (argv : list string) (check : bool) : M Z :=
  fun w =>
    let w' := emit (EvRun argv check) w in
    match subprocess_run lib w argv with
    | Raise e => (Raise e, w')
    | Ok rc =>
        if check && negb (rc =? 0)%Z then (Raise (CalledProcessError rc), w')
        else (Ok rc, w')
    end.

Definition get (lib : Library) (url : string) (hdrs : list (string * string))
    : M string := fun w =>
  (requests_get lib w url hdrs, emit (EvGet url hdrs) w).

(** [genai.Client().models.generate_content(model=, contents=).text] *)
Definition generate_content (lib : Library) (model contents : string)
    : M (option string) := fun w =>
  (genai_generate_content lib w model contents, emit (EvGenai model contents) w).

(** [Anthropic().messages.create(model=, messages=, max_tokens=).content] *)
Definition messages_create (lib : Library) (model : string)
    (messages : list Message) (max_tokens : Z) : M (list string) := fun w =>
  (anthropic_messages_create lib w model messages max_tokens,
   emit (EvAnthropic model messages max_tokens) w).

(** The expression [response.content[0].text] of the Anthropic SDK. *)
Definition content_0_text (blocks : list string) : result string :=
  match blocks with
  | [] => Raise IndexError
  | t :: _ => Ok t
  end.

(** The expression [response.choices[0].message.content]. *)
Definition choices_0_message_content (response : ChatCompletion)
    : result (option string) :=
  match choices response with
  | [] => Raise IndexError
  | c :: _ => Ok (msg_content (message c))
  end.

(** [str(x)] for an [Optional[str]], as [print] and f-strings render it. *)
Definition str (v : option string) : string :=
  match v with
  | Some s => s
  | None => "None"
  end.

(** [str(n)] for an [int]. *)
Definition str_int (n : Z) : string := NilZero.string_of_int (Z.to_int n).

(** The one-character string ["\n"]. *)
Definition nl : string := String (ascii_of_nat 10) EmptyString.

(** [s * n] on strings. *)
Fixpoint str_mul (s : string) (n : nat) : string :=
  match n with
  | O => ""
  | S n' => s +:+ str_mul s n'
  end.

(** [OpenAI()] with no keyword argument; also the module-level client that
    [openai.chat.completions.create] uses in web_scraper.py. *)
Definition no_kwargs : Client := {| api_key := None; base_url := None |}.

(** ** token_tracking.py *)

Module token_tracking.

(** The loop of [calculate_input_tokens]: one [input_text += ...] per
    message, starting from [input_text]. *)
Definition input_text_loop (messages : list Message) (input_text : string)
    : string :=
  fold_left
    (fun acc m => acc +:+ (((role m +:+ ": ") +:+ content m) +:+ nl))
    messages input_text.

Definition calculate_input_tokens (messages : list Message)
    (encoding : Encoding) : result nat :=
  let input_text := input_text_loop messages "" in
  match encode encoding input_text with
  | Ok input_tokens => Ok (length input_tokens)
  | Raise e => Raise e
  end.

Definition calculate_output_tokens (text : string) (encoding : Encoding)
    : result nat :=
  match encode encoding text with
  | Ok output_tokens => Ok (length output_tokens)
  | Raise e => Raise e
  end.

Definition messages : list Message :=
  [ {| role := "system"; content := "You are a helpful assistant" |};
    {| role := "user"; content := "Hi! I'm Mkay!" |};
    {| role := "assistant"; content := "Hi Mkay! How can I assist you today?" |};
    {| role := "user"; content := "What's my name?" |} ].

Definition openai_api_token_tracking_example (lib : Library)
    : M (option string) :=
  load_dotenv_override;;
  api_key ← getenv "OPENAI_API_KEY";
  if negb (truthy api_key) then
    print "No API key was found!";;
    mret None
  else
    print "API key found!";;
    openai ← OpenAI lib no_kwargs;
    encoding ← lift (encoding_for_model lib "gpt-4o-mini");
    input_tokens ← lift (calculate_input_tokens messages encoding);
    print ("Input tokens: " +:+ str_int (Z.of_nat input_tokens));;
    response ← create lib openai "gpt-4o-mini" messages;
    response_content ← lift (choices_0_message_content response);
    print ("Response: " +:+ str response_content);;
    output_tokens ←
      match response_content with
      | Some text => lift (calculate_output_tokens text encoding)
      | None => raise TypeError
      end;
    print ("Output tokens: " +:+ str_int (Z.of_nat output_tokens));;
    match usage response with
    | Some u =>
        print (nl +:+ "Exact token usage from API:");;
        print ("  Prompt tokens: " +:+ str_int (prompt_tokens u));;
        print ("  Completion tokens: " +:+ str_int (completion_tokens u));;
        print ("  Total tokens: " +:+ str_int (total_tokens u))
    | None => mret tt
    end;;
    mret response_content.

(** The loop [for i, token in enumerate(tokens): print(f"Token {i}: ...")]
    of [basic_tokenization_example], from index [i] on.  [decode] is the
    method [encoding.decode]. *)
Fixpoint print_tokens (decode : Encoding -> list Z -> result string)
    (encoding : Encoding) (i : nat) (tokens : list Z) : M unit :=
  match tokens with
  | [] => mret tt
  | token :: rest =>
      text ← lift (decode encoding [token]);
      print ("Token " +:+ str_int (Z.of_nat i) +:+ ": " +:+ text);;
      print_tokens decode encoding (S i) rest
  end.

Definition basic_tokenization_example (lib : Library)
    (decode : Encoding -> list Z -> result string) : M unit :=
  encoding ← lift (encoding_for_model lib "gpt-4o-mini");
  tokens ← lift (encode encoding "Testing Tokenomies");
  print ("Number of tokens: " +:+ str_int (Z.of_nat (length tokens)));;
  print_tokens decode encoding 0 tokens.

(** The [__main__] block. *)
Definition main (lib : Library)
    (decode : Encoding -> list Z -> result string) : M unit :=
  print (str_mul "=" 60);;
  print "Basic Tokenization Example";;
  print (str_mul "=" 60);;
  basic_tokenization_example lib decode;;
  print (nl +:+ str_mul "=" 60);;
  print "OpenAI API Token Tracking Example";;
  print (str_mul "=" 60);;
  openai_api_token_tracking_example lib;;
  mret tt.

End token_tracking.

(** ** openai_client.py *)

Module openai_client.

(** Module level: [load_dotenv(override=True)]. *)
Definition module_init : M unit := load_dotenv_override.

Definition fun_fact : list Message :=
  [ {| role := "user"; content := "Tell me a fun fact" |} ].

Definition test_openai (lib : Library) : M (option string) :=
  api_key ← getenv "OPENAI_API_KEY";
  if negb (truthy api_key) then
    print "No API key was found!";;
    mret None
  else
    print "API key found!";;
    openai ← OpenAI lib no_kwargs;
    response ← create lib openai "gpt-5-nano" fun_fact;
    lift (choices_0_message_content response).

Definition GEMINI_BASE_URL : string :=
  "https://generativelanguage.googleapis.com/v1beta/openai/".

Definition test_gemini (lib : Library) : M (option string) :=
  google_api_key ← getenv "GOOGLE_API_KEY";
  if negb (truthy google_api_key) then
    print "No Google API key was found!";;
    mret None
  else
    print "Google API key found!";;
    gemini ← OpenAI lib {| api_key := google_api_key;
                           base_url := Some GEMINI_BASE_URL |};
    response ← create lib gemini "gemini-2.5-flash-lite" fun_fact;
    lift (choices_0_message_content response).

Definition OLLAMA_BASE_URL : string := "http://localhost:11434/v1".

(** The statement [ollama = OpenAI(base_url=OLLAMA_BASE_URL, api_key='ollama')]. *)
Definition ollama_client (lib : Library) : M Client :=
  OpenAI lib {| api_key := Some "ollama"; base_url := Some OLLAMA_BASE_URL |}.

Definition test_ollama_llama (lib : Library) : M (option string) :=
  ollama ← ollama_client lib;
  print "Pulling llama3.2 model...";;
  run lib ["ollama"; "pull"; "llama3.2"] true;;
  response ← create lib ollama "llama3.2" fun_fact;
  lift (choices_0_message_content response).

Definition test_ollama_deepseek (lib : Library) : M (option string) :=
  ollama ← ollama_client lib;
  print "Pulling deepseek-r1:1.5b model...";;
  run lib ["ollama"; "pull"; "deepseek-r1:1.5b"] true;;
  response ← create lib ollama "deepseek-r1:1.5b" fun_fact;
  lift (choices_0_message_content response).

(** The statement [if result: print(f"Response: {result}\n")]. *)
Definition print_response (result : option string) : M unit :=
  if truthy result then print ("Response: " +:+ str result +:+ nl)
  else mret tt.

(** The [__main__] block.  [str_exn] is [str] on exceptions, whose text the
    raising library supplies. *)
Definition main (lib : Library) (str_exn : exn -> string) : M unit :=
  print (str_mul "=" 60);;
  print "OpenAI API Test";;
  print (str_mul "=" 60);;
  result ← test_openai lib;
  print_response result;;
  print (str_mul "=" 60);;
  print "Google Gemini Test";;
  print (str_mul "=" 60);;
  result ← test_gemini lib;
  print_response result;;
  print (str_mul "=" 60);;
  print "Ollama Llama 3.2 Test";;
  print (str_mul "=" 60);;
  try_except
    (result ← test_ollama_llama lib;
     print_response result)
    (fun e => print ("Error: " +:+ str_exn e +:+ nl));;
  print (str_mul "=" 60);;
  print "Ollama Deepseek R1 Test";;
  print (str_mul "=" 60);;
  try_except
    (result ← test_ollama_deepseek lib;
     print_response result)
    (fun e => print ("Error: " +:+ str_exn e +:+ nl)).

End openai_client.

(** ** web_scraper.py *)

Module web_scraper.

Definition module_init : M unit :=
  load_dotenv_override;;
  api_key ← getenv "OPENAI_API_KEY";
  if negb (truthy api_key) then print "No API key was found!"
  else print "API key found and looks good so far!".

Definition system_prompt : string :=
  nl +:+ "You are a financial research assistant expert at stock market trading. Your job is to analyze the contents of a website, and "
  +:+ nl +:+ "extract information that can signal bullish or bearish trading for the day. "
  +:+ nl.

Definition user_prompt_prefix : string :=
  nl +:+ "Here are the contents of a website." +:+ nl +:+ nl.

Definition messages_for (website : string) : list Message :=
  [ {| role := "system"; content := system_prompt |};
    {| role := "user"; content := user_prompt_prefix +:+ website |} ].

Definition headers : list (string * string) :=
  [ ("User-Agent",
     "Mozilla/5.0 (Windows NT 10.0; Win64; x64) AppleWebKit/537.36 (KHTML, like Gecko) Chrome/117.0.0.0 Safari/537.36") ].

(** [soup.body] is read three times by the source (the test, the loop, the
    text extraction); the model reads the handle once and threads the
    document that the [decompose] calls change. *)
Definition fetch_website_contents (lib : Library) (url : string) : M string :=
  response_content ← get lib url headers;
  let soup := BeautifulSoup lib response_content "html.parser" in
  let title :=
    match soup_title lib soup with
    | Some t => tag_string lib soup t
    | None => Some "No title found"
    end in
  let text :=
    match soup_body lib soup with
    | Some body =>
        let soup' :=
          fold_left (decompose lib)
            (find_all lib soup body ["script"; "style"; "img"; "input"]) soup in
        get_text lib soup' body nl true
    | None => ""
    end in
  match title with
  | Some title => mret (substring 0 2000 ((title +:+ (nl +:+ nl)) +:+ text))
  | None => raise TypeError
  end.

Definition summarize (lib : Library) (url : string) : M (option string) :=
  website ← fetch_website_contents lib url;
  response ← create lib no_kwargs "gpt-4o-mini" (messages_for website);
  lift (choices_0_message_content response).

Definition display_summary (lib : Library) (url : string) : M unit :=
  summary ← summarize lib url;
  print (str summary).

Definition main (lib : Library) : M unit :=
  display_summary lib "https://www.cnbc.com".

End web_scraper.

(** ** hello_world.py (a module-level script) *)

Module hello_world.

Definition system_prompt : string :=
  nl +:+ "You are a humorous assistant that enjoys in proving customer service,"
  +:+ nl +:+ "You will intereact with the user and figure out how to tell a joke that is friendly and non-offensive."
  +:+ nl +:+ "Your job is to make the user feel happy. You will not tell the user that you are an AI assistant."
  +:+ nl.

Definition user_prompt : string :=
  nl +:+ "Hello! Today is a beautiful day!" +:+ nl.

Definition message : string := "Hello, GPT! What is 1+1?".

(** The two values the variable [messages] takes. *)
Definition messages_1 : list Message :=
  [ {| role := "user"; content := message |} ].

Definition messages_2 : list Message :=
  [ {| role := "system"; content := system_prompt |};
    {| role := "user"; content := user_prompt |} ].

Definition script (lib : Library) : M unit :=
  load_dotenv_override;;
  api_key ← getenv "OPENAI_API_KEY";
  (if negb (truthy api_key) then print "No API key was found!"
   else print "API key found!");;
  openai_client ← OpenAI lib no_kwargs;
  response ← create lib openai_client "gpt-4o-mini" messages_1;
  text ← lift (choices_0_message_content response);
  print (str text);;
  response ← create lib openai_client "gpt-4o-mini" messages_2;
  text ← lift (choices_0_message_content response);
  print (str text).

End hello_world.

(** ** multi_provider_llm.py (a module-level script) *)

Module multi_provider_llm.

Record Keys := {
  openai_api_key : option string;
  anthropic_api_key : option string;
  google_api_key : option string;
  deepseek_api_key : option string;
  groq_api_key : option string;
  grok_api_key : option string;
  openrouter_api_key : option string
}.

(** Section "API Key Setup". *)
Definition api_key_setup : M Keys :=
  load_dotenv_override;;
  openai_api_key ← getenv "OPENAI_API_KEY";
  anthropic_api_key ← getenv "ANTHROPIC_API_KEY";
  google_api_key ← getenv "GOOGLE_API_KEY";
  deepseek_api_key ← getenv "DEEPSEEK_API_KEY";
  groq_api_key ← getenv "GROQ_API_KEY";
  grok_api_key ← getenv "GROK_API_KEY";
  openrouter_api_key ← getenv "OPENROUTER_API_KEY";
  (if truthy openai_api_key then
     print ("OpenAI API Key found: " +:+ substring 0 8 (str openai_api_key) +:+ "...")
   else print "OpenAI API Key not set");;
  (if truthy anthropic_api_key then
     print ("Anthropic API Key found: " +:+ substring 0 7 (str anthropic_api_key) +:+ "...")
   else print "Anthropic API Key not set (and this is optional)");;
  (if truthy google_api_key then
     print ("Google API Key found: " +:+ substring 0 2 (str google_api_key) +:+ "...")
   else print "Google API Key not set (and this is optional)");;
  (if truthy deepseek_api_key then
     print ("DeepSeek API Key found: " +:+ substring 0 3 (str deepseek_api_key) +:+ "...")
   else print "DeepSeek API Key not set (and this is optional)");;
  (if truthy groq_api_key then
     print ("Groq API Key found: " +:+ substring 0 4 (str groq_api_key) +:+ "...")
   else print "Groq API Key not set (and this is optional)");;
  (if truthy grok_api_key then
     print ("Grok API Key found: " +:+ substring 0 4 (str grok_api_key) +:+ "...")
   else print "Grok API Key not set (and this is optional)");;
  (if truthy openrouter_api_key then
     print ("OpenRouter API Key found: " +:+ substring 0 3 (str openrouter_api_key) +:+ "...")
   else print "OpenRouter API Key not set (and this is optional)");;
  mret {| openai_api_key := openai_api_key;
          anthropic_api_key := anthropic_api_key;
          google_api_key := google_api_key;
          deepseek_api_key := deepseek_api_key;
          groq_api_key := groq_api_key;
          grok_api_key := grok_api_key;
          openrouter_api_key := openrouter_api_key |}.

Definition anthropic_url : string := "https://api.anthropic.com/v1/".
Definition gemini_url : string :=
  "https://generativelanguage.googleapis.com/v1beta/openai/".
Definition deepseek_url : string := "https://api.deepseek.com".
Definition groq_url : string := "https://api.groq.com/openai/v1".
Definition grok_url : string := "https://api.x.ai/v1".
Definition openrouter_url : string := "https://openrouter.ai/api/v1".
Definition ollama_url : string := "http://localhost:11434/v1".

Record Clients := {
  openai : Client;
  anthropic : Client;
  gemini : Client;
  deepseek : Client;
  groq : Client;
  grok : Client;
  openrouter : Client;
  ollama : Client
}.

(** The statement [ollama = OpenAI(api_key="ollama", base_url=ollama_url)]. *)
Definition ollama_client (lib : Library) : M Client :=
  OpenAI lib {| api_key := Some "ollama"; base_url := Some ollama_url |}.

(** Section "Client Setup". *)
Definition client_setup (lib : Library) (k : Keys) : M Clients :=
  openai ← OpenAI lib no_kwargs;
  anthropic ← OpenAI lib {| api_key := anthropic_api_key k;
                            base_url := Some anthropic_url |};
  gemini ← OpenAI lib {| api_key := google_api_key k;
                         base_url := Some gemini_url |};
  deepseek ← OpenAI lib {| api_key := deepseek_api_key k;
                           base_url := Some deepseek_url |};
  groq ← OpenAI lib {| api_key := groq_api_key k;
                       base_url := Some groq_url |};
  grok ← OpenAI lib {| api_key := grok_api_key k;
                       base_url := Some grok_url |};
  openrouter ← OpenAI lib {| api_key := openrouter_api_key k;
                             base_url := Some openrouter_url |};
  ollama ← ollama_client lib;
  mret {| openai := openai; anthropic := anthropic; gemini := gemini;
          deepseek := deepseek; groq := groq; grok := grok;
          openrouter := openrouter; ollama := ollama |}.

Definition tell_a_joke : list Message :=
  [ {| role := "user";
       content := "Tell a joke for a student on the journey to becoming an expert in LLM Engineering" |} ].

(** The three [print] calls that open every section of the script. *)
Definition banner (name : string) : M unit :=
  print (nl +:+ str_mul "=" 80);;
  print name;;
  print (str_mul "=" 80).

(** One section of the form
    [response = client.chat.completions.create(model=, messages=tell_a_joke)]
    [print(response.choices[0].message.content)]. *)
Definition ask (lib : Library) (c : Client) (model : string) : M unit :=
  response ← create lib c model tell_a_joke;
  text ← lift (choices_0_message_content response);
  print (str text).

Definition script (lib : Library) : M unit :=
  k ← api_key_setup;
  c ← client_setup lib k;
  banner "OpenAI";;
  ask lib (openai c) "gpt-4.1-mini";;
  banner "Anthropic";;
  ask lib (anthropic c) "claude-sonnet-4-5-20250929";;
  banner "Google Gemini";;
  ask lib (gemini c) "gemini-2.5-pro";;
  banner "Groq";;
  ask lib (groq c) "openai/gpt-oss-120b";;
  banner "DeepSeek";;
  ask lib (deepseek c) "deepseek-reasoner";;
  banner "Grok";;
  ask lib (grok c) "grok-4";;
  banner "Ollama";;
  get lib "http://localhost:11434/" [];;
  run lib ["ollama"; "pull"; "llama3.2"] false;;
  ask lib (ollama c) "llama3.2";;
  banner "Google Gemini (Native SDK)";;
  text ← generate_content lib "gemini-2.5-flash-lite" "tell a joke";
  print (str text);;
  banner "Anthropic (Native SDK)";;
  blocks ← messages_create lib "claude-sonnet-4-5-20250929"
             [ {| role := "user"; content := "tell a joke" |} ] 100;
  text ← lift (content_0_text blocks);
  print text.

End multi_provider_llm.

(** ** The specification's notions *)

(** The flattening the specification describes for [estimateConversation]:
    the text [role: content\n] of every message, concatenated in order. *)
Definition flatten (conversation : list Message) : string :=
  fold_right
    (fun m rest => (role m +:+ ": " +:+ content m +:+ nl) +:+ rest)
    "" conversation.

(** The Conversation invariant of the specification: the sequence is not
    empty, it holds at most one system message, and a system message is at
    index 0. *)
Definition is_system (m : Message) : bool := String.eqb (role m) "system".

Definition Conversation_invariant (conversation : list Message) : Prop :=
  conversation <> [] /\
  length (List.filter is_system conversation) <= 1 /\
  (forall i m, conversation !! i = Some m -> is_system m = true -> i = 0).

(** A decision procedure for the invariant: something at index 0, and no
    system message after it. *)
Definition conversation_ok (conversation : list Message) : bool :=
  match conversation with
  | [] => false
  | _ :: rest => forallb (fun m => negb (is_system m)) rest
  end.

(** ** Observations on traces *)

(** Number of [chat.completions.create] calls in a trace. *)
Definition is_chat (e : Event) : bool :=
  match e with
  | EvChat _ _ _ => true
  | _ => false
  end.

Definition chat_calls (t : list Event) : nat := length (List.filter is_chat t).

(** The event submits a conversation that satisfies the invariant (an event
    that submits none satisfies this vacuously). *)
Definition submits_ok (e : Event) : Prop :=
  match e with
  | EvChat _ _ messages | EvAnthropic _ messages _ =>
      Conversation_invariant messages
  | _ => True
  end.

(** The event uses the placeholder credential of the local Ollama host,
    where it uses a client at all. *)
Definition uses_placeholder (e : Event) : Prop :=
  match e with
  | EvOpenAI c | EvChat c _ _ => api_key c = Some "ollama"
  | _ => True
  end.

(** The world after the events [events] were appended one by one. *)
Definition emit_all (events : list Event) (w : World) : World :=
  fold_left (fun w e => emit e w) events w.

(** [emits P f]: whatever the world, running [f] appends events to the trace
    (it never rewrites the past) and the appended events satisfy [P]. *)
Definition emits {A} (P : list Event -> Prop) (f : M A) : Prop :=
  forall w, exists new, trace (f w).2 = (trace w ++ new)%list /\ P new.

(** [calls_le n f]: running [f] issues at most [n] completion requests. *)
Definition calls_le {A} (n : nat) (f : M A) : Prop :=
  emits (fun new => chat_calls new <= n) f.

(** Assumption on the openai SDK used where a theorem needs the constructor
    to return: it builds a client when it is given a non-empty [api_key]. *)
Definition accepts_explicit_key (lib : Library) : Prop :=
  forall w c k, api_key c = Some k -> k <> "" -> OpenAI_init lib w c = None.

(** The keys [api_key_setup] hands on. *)
Definition keys_of (env : gmap string string) : multi_provider_llm.Keys :=
  {| multi_provider_llm.openai_api_key := env !! "OPENAI_API_KEY";
     multi_provider_llm.anthropic_api_key := env !! "ANTHROPIC_API_KEY";
     multi_provider_llm.google_api_key := env !! "GOOGLE_API_KEY";
     multi_provider_llm.deepseek_api_key := env !! "DEEPSEEK_API_KEY";
     multi_provider_llm.groq_api_key := env !! "GROQ_API_KEY";
     multi_provider_llm.grok_api_key := env !! "GROK_API_KEY";
     multi_provider_llm.openrouter_api_key := env !! "OPENROUTER_API_KEY" |}.

(** The client that answers for each model multi_provider_llm.py asks,
    given the environment the keys are read from. *)
Definition provider_of_model (env : gmap string string)
    : list (string * Client) :=
  [ ("gpt-4.1-mini", no_kwargs);
    ("claude-sonnet-4-5-20250929",
     {| api_key := env !! "ANTHROPIC_API_KEY";
        base_url := Some multi_provider_llm.anthropic_url |});
    ("gemini-2.5-pro",
     {| api_key := env !! "GOOGLE_API_KEY";
        base_url := Some multi_provider_llm.gemini_url |});
    ("openai/gpt-oss-120b",
     {| api_key := env !! "GROQ_API_KEY";
        base_url := Some multi_provider_llm.groq_url |});
    ("deepseek-reasoner",
     {| api_key := env !! "DEEPSEEK_API_KEY";
        base_url := Some multi_provider_llm.deepseek_url |});
    ("grok-4",
     {| api_key := env !! "GROK_API_KEY";
        base_url := Some multi_provider_llm.grok_url |});
    ("llama3.2",
     {| api_key := Some "ollama";
        base_url := Some multi_provider_llm.ollama_url |}) ].

(** The request goes to the client of its model, with the joke prompt. *)
Definition rightly_addressed (env : gmap string string) (e : Event) : Prop :=
  match e with
  | EvChat c model messages =>
      In (model, c) (provider_of_model env) /\
      messages = multi_provider_llm.tell_a_joke
  | _ => True
  end.

(** The variable, the label, the number of key characters shown and whether
    the key is called optional, for each key check of multi_provider_llm.py. *)
Definition key_checks : list (string * string * nat * bool) :=
  [ ("OPENAI_API_KEY", "OpenAI", 8, false);
    ("ANTHROPIC_API_KEY", "Anthropic", 7, true);
    ("GOOGLE_API_KEY", "Google", 2, true);
    ("DEEPSEEK_API_KEY", "DeepSeek", 3, true);
    ("GROQ_API_KEY", "Groq", 4, true);
    ("GROK_API_KEY", "Grok", 4, true);
    ("OPENROUTER_API_KEY", "OpenRouter", 3, true) ].

(** What the key check of one entry prints: that the key is not set, or the
    label with the first [n] characters of the key. *)
Definition key_report (env : gmap string string)
    (check : string * string * nat * bool) : Event :=
  let '(var, label, n, optional) := check in
  match env !! var with
  | Some key =>
      if String.eqb key "" then
        EvPrint (label +:+ " API Key not set"
                 +:+ (if optional then " (and this is optional)" else ""))
      else
        EvPrint (label +:+ " API Key found: " +:+ substring 0 n key +:+ "...")
  | None =>
      EvPrint (label +:+ " API Key not set"
               +:+ (if optional then " (and this is optional)" else ""))
  end.

Definition is_print (e : Event) : bool :=
  match e with
  | EvPrint _ => true
  | _ => false
  end.

(** [summarize] asks gpt-4o-mini, through the module-level client, about a
    text of at most 2000 characters. *)
Definition bounded_prompt (e : Event) : Prop :=
  match e with
  | EvChat c model messages =>
      c = no_kwargs /\ model = "gpt-4o-mini" /\
      exists website,
        messages = web_scraper.messages_for website /\
        String.length website <= 2000
  | EvGet _ hdrs => hdrs = web_scraper.headers
  | _ => False
  end.

(** ** Test doubles *)

Module Stub.

(** One token per character. *)
Definition char_encoding : Encoding :=
  {| encode := fun s =>
       Ok (map (fun a => Z.of_nat (nat_of_ascii a)) (list_ascii_of_string s)) |}.

(** A library whose backend answers every request with [answer], whose SDK
    constructor always returns, and whose parser sees in every page a title
    tag with [.string] equal to [title] (when [title] is given) and a body
    whose text is [body] (when given). *)
Definition library (answer : result ChatCompletion)
    (title : option (option string)) (body : option string) : Library :=
  {| OpenAI_init := fun _ _ => None;
     chat_completions_create := fun _ _ _ _ => answer;
     requests_get := fun _ _ _ => Ok "";
     subprocess_run := fun _ _ => Ok 0%Z;
     encoding_for_model := fun _ => Ok char_encoding;
     genai_generate_content := fun _ _ _ => Ok None;
     anthropic_messages_create := fun _ _ _ _ => Ok [];
     Soup := unit;
     Tag := bool;
     BeautifulSoup := fun _ _ => tt;
     soup_title := fun _ => match title with Some _ => Some true | None => None end;
     soup_body := fun _ => match body with Some _ => Some false | None => None end;
     tag_string := fun _ _ => match title with Some s => s | None => None end;
     find_all := fun _ _ _ => [];
     decompose := fun s _ => s;
     get_text := fun _ _ _ _ => match body with Some t => t | None => "" end |}.

Definition reply (texts : list (option string)) (u : option CompletionUsage)
    : ChatCompletion :=
  {| choices := map (fun t => {| message := {| msg_content := t |} |}) texts;
     usage := u |}.

Definition world (env file : list (string * string)) : World :=
  {| environ := list_to_map env; dotenv_file := list_to_map file; trace := [] |}.

End Stub.

(** * Properties *)

(** ** Strings *)

Lemma append_cons (a : ascii) (s1 s2 : string) :
  String a s1 +:+ s2 = String a (s1 +:+ s2).
Proof. reflexivity. Qed.

Lemma append_assoc (s1 s2 s3 : string) :
  (s1 +:+ s2) +:+ s3 = s1 +:+ (s2 +:+ s3).
Proof.
  induction s1 as [|a s1 IH]; [reflexivity |].
  rewrite !append_cons. now f_equal.
Qed.

Lemma append_nil_r (s : string) : s +:+ "" = s.
Proof.
  induction s as [|a s IH]; [reflexivity |].
  rewrite append_cons. now f_equal.
Qed.

Lemma length_append (s1 s2 : string) :
  String.length (s1 +:+ s2) = String.length s1 + String.length s2.
Proof.
  induction s1 as [|a s1 IH]; [reflexivity |].
  rewrite append_cons. simpl. now f_equal.
Qed.

Lemma length_slice (n : nat) (s : string) :
  String.length (substring 0 n s) = Nat.min n (String.length s).
Proof.
  revert s; induction n as [|n IH]; intros [|a s]; simpl; try reflexivity.
  now rewrite IH.
Qed.

Lemma slice_short (n : nat) (s : string) :
  String.length s <= n -> substring 0 n s = s.
Proof.
  revert s; induction n as [|n IH]; intros [|a s]; simpl; intros H;
    try reflexivity; try lia.
  rewrite IH; [reflexivity | lia].
Qed.

Lemma slice_append (n : nat) (s1 s2 : string) :
  String.length s1 <= n ->
  substring 0 n (s1 +:+ s2) = s1 +:+ substring 0 (n - String.length s1) s2.
Proof.
  revert n; induction s1 as [|a s1 IH]; intros n H.
  - change ("" +:+ s2) with s2. simpl. now rewrite Nat.sub_0_r.
  - rewrite !append_cons. simpl in *. destruct n as [|n]; [lia |].
    simpl. rewrite IH; [reflexivity | lia].
Qed.

Lemma prefix_append (s1 s2 : string) : String.prefix s1 (s1 +:+ s2) = true.
Proof.
  induction s1 as [|a s1 IH].
  - now destruct s2.
  - rewrite append_cons. simpl.
    destruct (ascii_dec a a); [assumption | congruence].
Qed.

Lemma prefix_slice (n : nat) (s : string) :
  String.prefix (substring 0 n s) s = true.
Proof.
  revert s; induction n as [|n IH]; intros [|a s]; simpl; try reflexivity.
  destruct (ascii_dec a a); [apply IH | congruence].
Qed.

(** ** The monad and the trace *)

Lemma chat_calls_app (t1 t2 : list Event) :
  chat_calls (t1 ++ t2) = chat_calls t1 + chat_calls t2.
Proof. unfold chat_calls. now rewrite List.filter_app, length_app. Qed.

(** Running a bind, one step at a time *)
Lemma bind_unfold {A B} (m : M A) (g : A -> M B) (w : World) :
  (m ≫= g) w
  = match m w with
    | (Ok a, w') => g a w'
    | (Raise e, w') => (Raise e, w')
    end.
Proof. reflexivity. Qed.

Lemma bind_run {A B} (m : M A) (g : A -> M B) (w w' : World) (a : A) :
  m w = (Ok a, w') -> (m ≫= g) w = g a w'.
Proof. intros H. rewrite bind_unfold. now rewrite H. Qed.

Lemma bind_raise {A B} (m : M A) (g : A -> M B) (w w' : World) (e : exn) :
  m w = (Raise e, w') -> (m ≫= g) w = (Raise e, w').
Proof. intros H. rewrite bind_unfold. now rewrite H. Qed.

Lemma bind_print {B} (s : string) (g : unit -> M B) (w : World) :
  (print s ≫= g) w = g tt (emit (EvPrint s) w).
Proof. reflexivity. Qed.

Section emits.
Context {A B : Type}.

Lemma emits_weaken (P Q : list Event -> Prop) (f : M A) :
  (forall t, P t -> Q t) -> emits P f -> emits Q f.
Proof.
  intros HPQ Hf w. destruct (Hf w) as (new & Hnew & HP). eauto.
Qed.

Lemma emits_bind (P Q R : list Event -> Prop) (f : M A) (g : A -> M B) :
  emits P f ->
  (forall a, emits Q (g a)) ->
  (forall t, P t -> R t) ->
  (forall t1 t2, P t1 -> Q t2 -> R (t1 ++ t2)%list) ->
  emits R (f ≫= g).
Proof.
  intros Hf Hg Hstop Hseq w.
  destruct (Hf w) as (t1 & Ht1 & HP).
  unfold mbind, M_bind. destruct (f w) as [[a|e] w1]; simpl in *.
  - destruct (Hg a w1) as (t2 & Ht2 & HQ).
    exists (t1 ++ t2)%list. rewrite Ht2, Ht1, <- app_assoc. auto.
  - exists t1. auto.
Qed.

Lemma emits_ret (P : list Event -> Prop) (a : A) : P [] -> emits P (mret a).
Proof. intros HP w. exists []. simpl. now rewrite app_nil_r. Qed.

Lemma emits_lift (P : list Event -> Prop) (r : result A) :
  P [] -> emits P (lift r).
Proof. intros HP w. exists []. simpl. now rewrite app_nil_r. Qed.

Lemma emits_raise (P : list Event -> Prop) (e : exn) :
  P [] -> emits P (raise e : M A).
Proof. intros HP w. exists []. simpl. now rewrite app_nil_r. Qed.
End emits.

Lemma emits_getenv (P : list Event -> Prop) (name : string) :
  P [] -> emits P (getenv name).
Proof. intros HP w. exists []. simpl. now rewrite app_nil_r. Qed.

Lemma emits_load_dotenv (P : list Event -> Prop) :
  P [] -> emits P load_dotenv_override.
Proof. intros HP w. exists []. simpl. now rewrite app_nil_r. Qed.

Lemma emits_print (P : list Event -> Prop) (s : string) :
  P [EvPrint s] -> emits P (print s).
Proof. intros HP w. exists [EvPrint s]. auto. Qed.

Lemma emits_OpenAI (P : list Event -> Prop) (lib : Library) (c : Client) :
  P [EvOpenAI c] -> emits P (OpenAI lib c).
Proof.
  intros HP w. exists [EvOpenAI c]. unfold OpenAI.
  destruct (OpenAI_init lib w c); auto.
Qed.

Lemma emits_create (P : list Event -> Prop) (lib : Library) (c : Client)
    (model : string) (msgs : list Message) :
  P [EvChat c model msgs] -> emits P (create lib c model msgs).
Proof. intros HP w. exists [EvChat c model msgs]. auto. Qed.

Lemma emits_run (P : list Event -> Prop) (lib : Library) (argv : list string)
    (check : bool) :
  P [EvRun argv check] -> emits P (run lib argv check).
Proof.
  intros HP w. exists [EvRun argv check]. unfold run.
  destruct (subprocess_run lib w argv) as [rc|e]; [|auto].
  destruct (check && negb (rc =? 0)%Z); auto.
Qed.

Lemma emits_get (P : list Event -> Prop) (lib : Library) (url : string)
    (hdrs : list (string * string)) :
  P [EvGet url hdrs] -> emits P (get lib url hdrs).
Proof. intros HP w. exists [EvGet url hdrs]. auto. Qed.

Lemma emits_generate_content (P : list Event -> Prop) (lib : Library)
    (model contents : string) :
  P [EvGenai model contents] -> emits P (generate_content lib model contents).
Proof. intros HP w. exists [EvGenai model contents]. auto. Qed.

Lemma emits_messages_create (P : list Event -> Prop) (lib : Library)
    (model : string) (msgs : list Message) (n : Z) :
  P [EvAnthropic model msgs n] -> emits P (messages_create lib model msgs n).
Proof. intros HP w. exists [EvAnthropic model msgs n]. auto. Qed.

(** ** token_tracking: flattening and counting *)

Lemma input_text_loop_flatten (msgs : list Message) (acc : string) :
  token_tracking.input_text_loop msgs acc = acc +:+ flatten msgs.
Proof.
  unfold token_tracking.input_text_loop.
  revert acc; induction msgs as [|m msgs IH]; intros acc; simpl.
  - now rewrite append_nil_r.
  - rewrite IH. now rewrite !append_assoc.
Qed.

(** C2: [calculate_input_tokens] on a conversation is [calculate_output_tokens]
    (the plain estimate) on the concatenation, in message order, of
    [role: content\n] for each message; and the conversation
    [system "S"; user "Hi"] flattens to exactly [system: S\nuser: Hi\n]. *)
Theorem calculate_input_tokens_is_estimate_of_flatten :
  (forall (msgs : list Message) (encoding : Encoding),
     token_tracking.calculate_input_tokens msgs encoding
     = token_tracking.calculate_output_tokens (flatten msgs) encoding) /\
  flatten [ {| role := "system"; content := "S" |};
            {| role := "user"; content := "Hi" |} ]
  = "system: S" +:+ nl +:+ "user: Hi" +:+ nl.
Proof.
  split; [|reflexivity].
  intros msgs encoding.
  unfold token_tracking.calculate_input_tokens,
    token_tracking.calculate_output_tokens.
  now rewrite input_text_loop_flatten.
Qed.

(** ** Reasoning on the events a program appends *)

Lemma all_bind {A B} (phi : Event -> Prop) (f : M A) (g : A -> M B) :
  emits (Forall phi) f ->
  (forall a, emits (Forall phi) (g a)) ->
  emits (Forall phi) (f ≫= g).
Proof.
  intros Hf Hg. apply (emits_bind (Forall phi) (Forall phi)); auto.
  intros t1 t2 H1 H2. apply Forall_app; auto.
Qed.

(** The constructor hands on the very client it was asked to build. *)
Lemma all_bind_OpenAI {B} (phi : Event -> Prop) (lib : Library) (c : Client)
    (g : Client -> M B) :
  phi (EvOpenAI c) ->
  emits (Forall phi) (g c) ->
  emits (Forall phi) (OpenAI lib c ≫= g).
Proof.
  intros Hc Hg w. unfold mbind, M_bind, OpenAI.
  destruct (OpenAI_init lib w c) as [e|].
  - exists [EvOpenAI c]. split; [reflexivity | now repeat constructor].
  - destruct (Hg (emit (EvOpenAI c) w)) as (t & Ht & HP).
    exists (EvOpenAI c :: t). split.
    + rewrite Ht. simpl. now rewrite <- app_assoc.
    + now constructor.
Qed.

Lemma calls_le_mono {A} (n m : nat) (f : M A) :
  n <= m -> calls_le n f -> calls_le m f.
Proof. intros Hnm. apply emits_weaken. intros t Ht. lia. Qed.

Lemma calls_bind {A B} (k n : nat) (f : M A) (g : A -> M B) :
  calls_le k f -> (forall a, calls_le n (g a)) -> calls_le (k + n) (f ≫= g).
Proof.
  intros Hf Hg.
  apply (emits_bind (fun t => chat_calls t <= k) (fun t => chat_calls t <= n));
    auto.
  - intros t Ht. lia.
  - intros t1 t2 H1 H2. rewrite chat_calls_app. lia.
Qed.

Lemma calls_bind_0 {A B} (n : nat) (f : M A) (g : A -> M B) :
  calls_le 0 f -> (forall a, calls_le n (g a)) -> calls_le n (f ≫= g).
Proof. apply (calls_bind 0 n). Qed.

Lemma calls_bind_1 {A B} (n : nat) (f : M A) (g : A -> M B) :
  calls_le 1 f -> (forall a, calls_le n (g a)) -> calls_le (S n) (f ≫= g).
Proof. apply (calls_bind 1 n). Qed.

Lemma calls_create (lib : Library) (c : Client) (model : string)
    (msgs : list Message) :
  calls_le 1 (create lib c model msgs).
Proof. apply emits_create. reflexivity. Qed.

(** ** C8: the conversations the scripts submit *)

Lemma conversation_ok_invariant (msgs : list Message) :
  conversation_ok msgs = true -> Conversation_invariant msgs.
Proof.
  destruct msgs as [|m rest]; [discriminate |]. simpl. intros Hrest.
  rewrite forallb_forall in Hrest.
  assert (Hnone : List.filter is_system rest = []).
  { clear m. induction rest as [|m' rest IH]; [reflexivity |]. simpl.
    pose proof (Hrest m' (or_introl eq_refl)) as Hm'.
    destruct (is_system m'); [discriminate |].
    apply IH. intros x Hx. apply Hrest. now right. }
  repeat split.
  - discriminate.
  - simpl. rewrite Hnone. destruct (is_system m); simpl; lia.
  - intros [|i] m' Hi Hsys; [reflexivity |]. simpl in Hi.
    apply list_elem_of_lookup_2, list_elem_of_In in Hi.
    apply Hrest in Hi. rewrite Hsys in Hi. discriminate.
Qed.

Lemma messages_for_ok (website : string) :
  Conversation_invariant (web_scraper.messages_for website).
Proof. apply conversation_ok_invariant. reflexivity. Qed.

(** One step of a proof that a program appends only events of some kind:
    split a bind, choose a branch, or discharge a primitive action. *)
Ltac emits_prim :=
  first
    [ apply emits_ret | apply emits_lift | apply emits_raise
    | apply emits_getenv | apply emits_load_dotenv | apply emits_print
    | apply emits_OpenAI | apply emits_create | apply emits_run
    | apply emits_get | apply emits_generate_content
    | apply emits_messages_create ].

Ltac emits_split :=
  match goal with
  | |- emits _ (if ?b then _ else _) => destruct b
  | |- emits _ (match ?x with _ => _ end) => destruct x
  | |- calls_le _ (if ?b then _ else _) => destruct b
  | |- calls_le _ (match ?x with _ => _ end) => destruct x
  end.

Ltac event_ok :=
  simpl;
  first [ exact I | reflexivity | apply conversation_ok_invariant; reflexivity ].

Ltac all_events :=
  repeat first
    [ apply all_bind_OpenAI; [event_ok |]
    | apply all_bind; [| intros ?]
    | emits_split
    | emits_prim;
      first [ solve [constructor] | constructor; [event_ok | constructor] ] ].

Ltac no_calls :=
  repeat first
    [ apply calls_bind_0; [| intros ?]
    | emits_split
    | emits_prim; cbn; lia ].

Ltac count_calls :=
  repeat first
    [ apply calls_bind_1; [solve [apply calls_create | auto] | intros ?]
    | apply calls_bind_0; [solve [no_calls | auto] | intros ?]
    | emits_split
    | solve [apply calls_create]
    | emits_prim; cbn; lia ].

(** C8: every conversation a script constructs and submits to a backend
    satisfies the Conversation invariant (not empty, at most one system
    message, a system message only at index 0).  Stated on the trace: every
    event that any of the programs appends, whatever the libraries answer,
    carries a conversation that satisfies the invariant if it carries one. *)
Theorem submitted_conversations_satisfy_invariant (lib : Library) (url : string) :
  emits (Forall submits_ok) (openai_client.test_openai lib) /\
  emits (Forall submits_ok) (openai_client.test_gemini lib) /\
  emits (Forall submits_ok) (openai_client.test_ollama_llama lib) /\
  emits (Forall submits_ok) (openai_client.test_ollama_deepseek lib) /\
  emits (Forall submits_ok) (web_scraper.summarize lib url) /\
  emits (Forall submits_ok) (token_tracking.openai_api_token_tracking_example lib) /\
  emits (Forall submits_ok) (hello_world.script lib) /\
  emits (Forall submits_ok) (multi_provider_llm.script lib).
Proof.
  repeat split.
  - unfold openai_client.test_openai. all_events.
  - unfold openai_client.test_gemini. all_events.
  - unfold openai_client.test_ollama_llama, openai_client.ollama_client.
    all_events.
  - unfold openai_client.test_ollama_deepseek, openai_client.ollama_client.
    all_events.
  - unfold web_scraper.summarize, web_scraper.fetch_website_contents.
    all_events.
  - unfold token_tracking.openai_api_token_tracking_example. all_events.
  - unfold hello_world.script. all_events.
  - unfold multi_provider_llm.script, multi_provider_llm.api_key_setup,
      multi_provider_llm.client_setup, multi_provider_llm.ollama_client,
      multi_provider_llm.banner, multi_provider_llm.ask.
    all_events.
Qed.

(** ** One completion request per call *)

Lemma fetch_website_contents_no_calls (lib : Library) (url : string) :
  calls_le 0 (web_scraper.fetch_website_contents lib url).
Proof. unfold web_scraper.fetch_website_contents. no_calls. Qed.

(** X21: the scripts contain no retry of their own: every function that
    wraps a completion calls [chat.completions.create] at most once per
    invocation, whatever the libraries answer (so also when the call
    fails), and the two module-level scripts call it at most as often as
    they have [create] statements (two and seven).  What the SDK does
    inside one call is not part of this statement. *)
Theorem at_most_one_completion_request (lib : Library) (url : string)
    (c : Client) (model : string) :
  calls_le 1 (openai_client.test_openai lib) /\
  calls_le 1 (openai_client.test_gemini lib) /\
  calls_le 1 (openai_client.test_ollama_llama lib) /\
  calls_le 1 (openai_client.test_ollama_deepseek lib) /\
  calls_le 1 (web_scraper.summarize lib url) /\
  calls_le 1 (token_tracking.openai_api_token_tracking_example lib) /\
  calls_le 1 (multi_provider_llm.ask lib c model) /\
  calls_le 2 (hello_world.script lib) /\
  calls_le 7 (multi_provider_llm.script lib).
Proof.
  pose proof (fetch_website_contents_no_calls lib url) as Hfetch.
  assert (Hask : forall c' model', calls_le 1 (multi_provider_llm.ask lib c' model'))
    by (intros c' model'; unfold multi_provider_llm.ask; count_calls).
  repeat split.
  - unfold openai_client.test_openai. count_calls.
  - unfold openai_client.test_gemini. count_calls.
  - unfold openai_client.test_ollama_llama, openai_client.ollama_client.
    count_calls.
  - unfold openai_client.test_ollama_deepseek, openai_client.ollama_client.
    count_calls.
  - unfold web_scraper.summarize. count_calls.
  - unfold token_tracking.openai_api_token_tracking_example. count_calls.
  - apply Hask.
  - unfold hello_world.script. count_calls.
  - unfold multi_provider_llm.script, multi_provider_llm.api_key_setup,
      multi_provider_llm.client_setup, multi_provider_llm.ollama_client,
      multi_provider_llm.banner.
    count_calls.
Qed.

(** Scenario C of the specification on a stub backend that fails every
    request (say with HTTP 429): [test_openai] raises that error and the
    trace holds exactly one completion request. *)
Example test_openai_backend_error_not_retried :
  let lib := Stub.library (Raise (LibraryError "429")) None None in
  let w := Stub.world [("OPENAI_API_KEY", "sk-test")] [] in
  (openai_client.test_openai lib w).1 = Raise (LibraryError "429") /\
  chat_calls (trace (openai_client.test_openai lib w).2) = 1.
Proof. split; reflexivity. Qed.

(** ** C3: the local Ollama host *)

(** C3: resolving the local Ollama host needs no credential from the
    environment.  In every world, so whatever environment variables are set
    or unset, the client-construction statement of openai_client.py and of
    multi_provider_llm.py returns a client whose key is the non-empty
    placeholder "ollama" (given an SDK constructor that accepts an explicit
    non-empty key), and every client and request of [test_ollama_llama] and
    [test_ollama_deepseek] carries that placeholder. *)
Theorem ollama_resolution_succeeds (lib : Library) (w : World) :
  accepts_explicit_key lib ->
  openai_client.ollama_client lib w
  = (Ok {| api_key := Some "ollama";
           base_url := Some openai_client.OLLAMA_BASE_URL |},
     emit (EvOpenAI {| api_key := Some "ollama";
                       base_url := Some openai_client.OLLAMA_BASE_URL |}) w) /\
  multi_provider_llm.ollama_client lib w
  = (Ok {| api_key := Some "ollama";
           base_url := Some multi_provider_llm.ollama_url |},
     emit (EvOpenAI {| api_key := Some "ollama";
                       base_url := Some multi_provider_llm.ollama_url |}) w) /\
  "ollama" <> "" /\
  emits (Forall uses_placeholder) (openai_client.test_ollama_llama lib) /\
  emits (Forall uses_placeholder) (openai_client.test_ollama_deepseek lib).
Proof.
  intros Hsdk.
  unfold openai_client.ollama_client, multi_provider_llm.ollama_client, OpenAI.
  rewrite !(Hsdk w _ "ollama") by (reflexivity || discriminate).
  repeat split; try discriminate.
  - unfold openai_client.test_ollama_llama, openai_client.ollama_client.
    all_events.
  - unfold openai_client.test_ollama_deepseek, openai_client.ollama_client.
    all_events.
Qed.

Lemma ollama_resolution_succeeds_witness :
  let lib := Stub.library (Ok (Stub.reply [Some "hi"] None)) None None in
  let w := Stub.world [] [] in
  accepts_explicit_key lib /\
  (openai_client.ollama_client lib w).1
  = Ok {| api_key := Some "ollama";
          base_url := Some openai_client.OLLAMA_BASE_URL |}.
Proof.
  intros lib w.
  assert (Hsdk : accepts_explicit_key lib) by (intros ? ? ? ? ?; reflexivity).
  split; [exact Hsdk |].
  destruct (ollama_resolution_succeeds lib w Hsdk) as [H _].
  rewrite H. reflexivity.
Defined.

(** ** C1 and C10: a missing key *)

Lemma test_openai_missing_key (lib : Library) (w : World) :
  truthy (environ w !! "OPENAI_API_KEY") = false ->
  openai_client.test_openai lib w
  = (Ok None, emit (EvPrint "No API key was found!") w).
Proof.
  intros Hkey. unfold openai_client.test_openai, mbind, M_bind, getenv.
  now rewrite Hkey.
Qed.

Lemma test_gemini_missing_key (lib : Library) (w : World) :
  truthy (environ w !! "GOOGLE_API_KEY") = false ->
  openai_client.test_gemini lib w
  = (Ok None, emit (EvPrint "No Google API key was found!") w).
Proof.
  intros Hkey. unfold openai_client.test_gemini, mbind, M_bind, getenv.
  now rewrite Hkey.
Qed.

Lemma print_if (b : bool) (s1 s2 : string) :
  (if b then print s1 else print s2) = print (if b then s1 else s2).
Proof. now destruct b. Qed.

Lemma key_report_eq (env : gmap string string) (var label : string) (n : nat)
    (optional : bool) :
  key_report env (var, label, n, optional)
  = EvPrint (if truthy (env !! var)
             then label +:+ " API Key found: "
                  +:+ substring 0 n (str (env !! var)) +:+ "..."
             else label +:+ " API Key not set"
                  +:+ (if optional then " (and this is optional)" else "")).
Proof.
  unfold key_report, truthy.
  destruct (env !! var) as [key|]; [destruct (String.eqb key "") |];
    reflexivity.
Qed.

Lemma api_key_setup_run (w : World) :
  multi_provider_llm.api_key_setup w
  = (Ok (keys_of (dotenv_file w ∪ environ w)),
     {| environ := dotenv_file w ∪ environ w;
        dotenv_file := dotenv_file w;
        trace := (trace w
                  ++ map (key_report (dotenv_file w ∪ environ w)) key_checks)%list |}).
Proof.
  unfold multi_provider_llm.api_key_setup.
  unfold mbind, M_bind, mret, M_ret, load_dotenv_override, getenv.
  cbn [environ dotenv_file trace].
  repeat (rewrite print_if; unfold print at 1; cbn beta iota).
  unfold emit. cbn [environ dotenv_file trace].
  unfold key_checks. cbn [map]. rewrite !key_report_eq.
  repeat rewrite <- app_assoc. reflexivity.
Qed.

Lemma key_report_not_set (env : gmap string string) (var label : string)
    (n : nat) (optional : bool) :
  truthy (env !! var) = false ->
  key_report env (var, label, n, optional)
  = EvPrint (label +:+ " API Key not set"
             +:+ (if optional then " (and this is optional)" else "")).
Proof. intros H. now rewrite key_report_eq, H. Qed.

(** C1, as stated, fails: with no [OPENAI_API_KEY] anywhere, [test_openai]
    raises nothing. *)
Lemma missing_key_is_not_an_error :
  ~ (forall (lib : Library) (w : World),
       truthy (environ w !! "OPENAI_API_KEY") = false ->
       exists e, (openai_client.test_openai lib w).1 = Raise e).
Proof.
  intros H.
  destruct (H (Stub.library (Raise (LibraryError "unreachable")) None None)
              (Stub.world [] []) eq_refl) as [e He].
  vm_compute in He. discriminate.
Qed.

(** C1 (amended): a missing or empty key is reported, not raised.
    [test_openai] and [test_gemini] print their message and return [None]
    without building a client or sending a request.  The key checks of
    multi_provider_llm.py never raise: they hand on, for each of the seven
    providers, the value read from that provider's variable, and for every
    provider whose variable is unset or empty they print
    "<Provider> API Key not set" (with "(and this is optional)" for all but
    OpenAI). *)
Theorem missing_key_is_reported_not_raised (lib : Library) (w : World) :
  (truthy (environ w !! "OPENAI_API_KEY") = false ->
   openai_client.test_openai lib w
   = (Ok None, emit (EvPrint "No API key was found!") w)) /\
  (truthy (environ w !! "GOOGLE_API_KEY") = false ->
   openai_client.test_gemini lib w
   = (Ok None, emit (EvPrint "No Google API key was found!") w)) /\
  (exists new,
     multi_provider_llm.api_key_setup w
     = (Ok (keys_of (dotenv_file w ∪ environ w)),
        {| environ := dotenv_file w ∪ environ w;
           dotenv_file := dotenv_file w;
           trace := (trace w ++ new)%list |}) /\
     forall var label n optional,
       In (var, label, n, optional) key_checks ->
       truthy ((dotenv_file w ∪ environ w) !! var) = false ->
       In (EvPrint (label +:+ " API Key not set"
                    +:+ (if optional then " (and this is optional)" else "")))
          new).
Proof.
  split; [apply test_openai_missing_key |].
  split; [apply test_gemini_missing_key |].
  exists (map (key_report (dotenv_file w ∪ environ w)) key_checks).
  split; [apply api_key_setup_run |].
  intros var label n optional Hin Hkey.
  rewrite <- (key_report_not_set _ var label n optional Hkey).
  apply (in_map (key_report (dotenv_file w ∪ environ w)) _ _ Hin).
Qed.

Lemma missing_key_is_reported_not_raised_witness :
  let lib := Stub.library (Raise (LibraryError "unreachable")) None None in
  let w := Stub.world [("GOOGLE_API_KEY", "")] [("GROQ_API_KEY", "gsk-test")] in
  (openai_client.test_openai lib w).1 = Ok None /\
  (openai_client.test_gemini lib w).1 = Ok None /\
  In (EvPrint "Google API Key not set (and this is optional)")
     (trace (multi_provider_llm.api_key_setup w).2).
Proof.
  intros lib w.
  destruct (missing_key_is_reported_not_raised lib w) as (H1 & H2 & new & Hrun & Hnew).
  rewrite (H1 eq_refl), (H2 eq_refl). split; [reflexivity |].
  split; [reflexivity |].
  rewrite Hrun. cbn [snd trace]. apply in_or_app. right.
  apply (Hnew "GOOGLE_API_KEY" "Google" 2 true).
  - cbn. tauto.
  - reflexivity.
Defined.

Lemma token_tracking_missing_key (lib : Library) (w : World) :
  truthy ((dotenv_file w ∪ environ w) !! "OPENAI_API_KEY") = false ->
  token_tracking.openai_api_token_tracking_example lib w
  = (Ok None, emit (EvPrint "No API key was found!") (load_dotenv_override w).2).
Proof.
  intros Hkey.
  unfold token_tracking.openai_api_token_tracking_example, mbind, M_bind,
    load_dotenv_override, getenv.
  cbn [environ dotenv_file trace fst snd]. now rewrite Hkey.
Qed.

(** A key that only the .env file holds is found: the variable is unset in
    the environment of the process, [load_dotenv] writes it, and
    [openai_api_token_tracking_example] sends its request and returns the
    answer. *)
Example key_from_dotenv_file_is_used :
  let lib := Stub.library (Ok (Stub.reply [Some "Mkay"] None)) None None in
  let w := Stub.world [] [("OPENAI_API_KEY", "sk-test")] in
  environ w !! "OPENAI_API_KEY" = None /\
  (token_tracking.openai_api_token_tracking_example lib w).1 = Ok (Some "Mkay") /\
  chat_calls (trace (token_tracking.openai_api_token_tracking_example lib w).2) = 1.
Proof. repeat split. Qed.

(** C10, as stated, fails for [openai_api_token_tracking_example]: with the
    key set nowhere, neither in the environment nor in the .env file, the
    function returns [None] and prints its message, but that is not the only
    change: [load_dotenv] has written the other variables of the .env file
    into the environment. *)
Lemma load_dotenv_changes_the_environment :
  ~ (forall (lib : Library) (w : World),
       environ w !! "OPENAI_API_KEY" = None ->
       dotenv_file w !! "OPENAI_API_KEY" = None ->
       (token_tracking.openai_api_token_tracking_example lib w).1 = Ok None /\
       exists msg,
         (token_tracking.openai_api_token_tracking_example lib w).2
         = emit (EvPrint msg) w).
Proof.
  intros H.
  destruct (H (Stub.library (Ok (Stub.reply [Some "Mkay"] None)) None None)
              (Stub.world [] [("GOOGLE_API_KEY", "g-test")]) eq_refl eq_refl)
    as [_ [msg Hworld]].
  apply (f_equal (fun w' => environ w' !! "GOOGLE_API_KEY")) in Hworld.
  vm_compute in Hworld. discriminate.
Qed.

(** C10 (amended): when [os.getenv('OPENAI_API_KEY')] gives [None] or the
    empty string at the check (in [openai_api_token_tracking_example] that is
    after its own [load_dotenv(override=True)] has written the .env file into
    the environment), [test_openai] and [openai_api_token_tracking_example]
    return [None]; the world they leave differs from the one they found by
    the printed message alone (and, for the latter, by what [load_dotenv]
    wrote): no request, no client, no exception. *)
Theorem missing_key_returns_none (lib : Library) (w : World) :
  (truthy (environ w !! "OPENAI_API_KEY") = false ->
   openai_client.test_openai lib w
   = (Ok None, emit (EvPrint "No API key was found!") w)) /\
  (truthy ((dotenv_file w ∪ environ w) !! "OPENAI_API_KEY") = false ->
   token_tracking.openai_api_token_tracking_example lib w
   = (Ok None,
      emit (EvPrint "No API key was found!") (load_dotenv_override w).2)).
Proof.
  split; [apply test_openai_missing_key | apply token_tracking_missing_key].
Qed.

Lemma missing_key_returns_none_witness :
  let lib := Stub.library (Ok (Stub.reply [Some "Mkay"] None)) None None in
  let w := Stub.world [("HOME", "/root")] [("OPENAI_API_KEY", "")] in
  (token_tracking.openai_api_token_tracking_example lib w).1 = Ok None /\
  (openai_client.test_openai lib w).1 = Ok None.
Proof.
  intros lib w.
  destruct (missing_key_returns_none lib w) as [H1 H2].
  rewrite (H1 eq_refl), (H2 eq_refl). split; reflexivity.
Defined.

(** ** C4: the text comes from the first choice *)

(** C4: the text a completion call hands back is the content of
    [choices[0]], whatever the later choices are.  For a response [r] whose
    choices are [c :: rest]: the expression [response.choices[0].message.content]
    gives the content of [c]; and every function or script that calls
    [chat.completions.create] returns or prints that content when the
    backend answers its request with [r]: [test_openai], [test_gemini],
    [test_ollama_llama], [test_ollama_deepseek], [summarize],
    [openai_api_token_tracking_example], both requests of hello_world.py and
    every section of multi_provider_llm.py. *)
Theorem text_is_first_choice_content (lib : Library) (r : ChatCompletion)
    (c : Choice) (rest : list Choice) :
  choices r = c :: rest ->
  choices_0_message_content r = Ok (msg_content (message c)) /\
  (forall w,
     truthy (environ w !! "OPENAI_API_KEY") = true ->
     OpenAI_init lib (emit (EvPrint "API key found!") w) no_kwargs = None ->
     chat_completions_create lib
       (emit (EvOpenAI no_kwargs) (emit (EvPrint "API key found!") w))
       no_kwargs "gpt-5-nano" openai_client.fun_fact = Ok r ->
     (openai_client.test_openai lib w).1 = Ok (msg_content (message c))) /\
  (forall w url website w',
     web_scraper.fetch_website_contents lib url w = (Ok website, w') ->
     chat_completions_create lib w' no_kwargs "gpt-4o-mini"
       (web_scraper.messages_for website) = Ok r ->
     (web_scraper.summarize lib url w).1 = Ok (msg_content (message c))) /\
  (forall w client model,
     chat_completions_create lib w client model multi_provider_llm.tell_a_joke
     = Ok r ->
     multi_provider_llm.ask lib client model w
     = (Ok tt,
        emit (EvPrint (str (msg_content (message c))))
          (emit (EvChat client model multi_provider_llm.tell_a_joke) w))) /\
  (forall w key,
     environ w !! "GOOGLE_API_KEY" = Some key ->
     key <> "" ->
     OpenAI_init lib (emit (EvPrint "Google API key found!") w)
       {| api_key := Some key; base_url := Some openai_client.GEMINI_BASE_URL |}
     = None ->
     chat_completions_create lib
       (emit (EvOpenAI {| api_key := Some key;
                          base_url := Some openai_client.GEMINI_BASE_URL |})
          (emit (EvPrint "Google API key found!") w))
       {| api_key := Some key; base_url := Some openai_client.GEMINI_BASE_URL |}
       "gemini-2.5-flash-lite" openai_client.fun_fact = Ok r ->
     (openai_client.test_gemini lib w).1 = Ok (msg_content (message c))) /\
  (forall w,
     (forall w' client, OpenAI_init lib w' client = None) ->
     (forall w' argv, subprocess_run lib w' argv = Ok 0%Z) ->
     (forall w' client model,
        chat_completions_create lib w' client model openai_client.fun_fact
        = Ok r) ->
     (openai_client.test_ollama_llama lib w).1 = Ok (msg_content (message c)) /\
     (openai_client.test_ollama_deepseek lib w).1
     = Ok (msg_content (message c))) /\
  (forall w encoding text input_tokens output_tokens,
     truthy ((dotenv_file w ∪ environ w) !! "OPENAI_API_KEY") = true ->
     (forall w', OpenAI_init lib w' no_kwargs = None) ->
     encoding_for_model lib "gpt-4o-mini" = Ok encoding ->
     token_tracking.calculate_input_tokens token_tracking.messages encoding
     = Ok input_tokens ->
     (forall w', chat_completions_create lib w' no_kwargs "gpt-4o-mini"
                   token_tracking.messages = Ok r) ->
     msg_content (message c) = Some text ->
     token_tracking.calculate_output_tokens text encoding = Ok output_tokens ->
     (token_tracking.openai_api_token_tracking_example lib w).1
     = Ok (msg_content (message c)) /\
     In (EvPrint ("Response: " +:+ str (msg_content (message c))))
        (trace (token_tracking.openai_api_token_tracking_example lib w).2)) /\
  (forall w,
     (forall w', OpenAI_init lib w' no_kwargs = None) ->
     (forall w' messages,
        chat_completions_create lib w' no_kwargs "gpt-4o-mini" messages = Ok r) ->
     (hello_world.script lib w).1 = Ok tt /\
     trace (hello_world.script lib w).2
     = (trace w
        ++ [ EvPrint (if truthy ((dotenv_file w ∪ environ w) !! "OPENAI_API_KEY")
                      then "API key found!" else "No API key was found!");
             EvOpenAI no_kwargs;
             EvChat no_kwargs "gpt-4o-mini" hello_world.messages_1;
             EvPrint (str (msg_content (message c)));
             EvChat no_kwargs "gpt-4o-mini" hello_world.messages_2;
             EvPrint (str (msg_content (message c))) ])%list).
Proof.
  intros Hchoices.
  assert (Hfirst : choices_0_message_content r = Ok (msg_content (message c)))
    by (unfold choices_0_message_content; now rewrite Hchoices).
  split; [exact Hfirst |]. repeat apply conj.
  - intros w Hkey Hinit Hcreate.
    unfold openai_client.test_openai, mbind, M_bind, getenv.
    rewrite Hkey. cbn [negb]. unfold print, OpenAI. rewrite Hinit.
    unfold create. rewrite Hcreate. unfold lift. now rewrite Hfirst.
  - intros w url website w' Hfetch Hcreate.
    unfold web_scraper.summarize, mbind, M_bind. rewrite Hfetch.
    unfold create. rewrite Hcreate. unfold lift. now rewrite Hfirst.
  - intros w client model Hcreate.
    unfold multi_provider_llm.ask, mbind, M_bind, create.
    rewrite Hcreate. unfold lift. now rewrite Hfirst.
  - intros w key Hkey Hne Hinit Hcreate.
    assert (Htruthy : truthy (Some key) = true)
      by (cbn; now apply String.eqb_neq in Hne; rewrite Hne).
    unfold openai_client.test_gemini, mbind, M_bind, getenv.
    rewrite Hkey, Htruthy. cbn [negb]. unfold print, OpenAI. rewrite Hinit.
    unfold create. rewrite Hcreate. unfold lift. now rewrite Hfirst.
  - intros w Hinit Hrun Hcreate.
    unfold openai_client.test_ollama_llama, openai_client.test_ollama_deepseek,
      openai_client.ollama_client, mbind, M_bind, OpenAI, print, run, create,
      lift.
    rewrite !Hinit. cbv beta iota. rewrite !Hrun. cbn [andb negb Z.eqb].
    cbv beta iota. rewrite !Hcreate, Hfirst. split; reflexivity.
  - intros w encoding text input_tokens output_tokens
      Hkey Hinit Henc Hin Hcreate Htext Hout.
    unfold token_tracking.openai_api_token_tracking_example, mbind, M_bind,
      load_dotenv_override, getenv, print, OpenAI, create, lift, mret, M_ret,
      raise.
    cbn [environ dotenv_file trace emit]. rewrite Hkey. cbv beta iota.
    cbn [negb]. rewrite Hinit, Henc, Hin, Hcreate, Hfirst, Htext, Hout.
    split.
    + now destruct (usage r).
    + destruct (usage r); cbn [snd trace emit str];
        rewrite !in_app_iff; cbn [In]; tauto.
  - intros w Hinit Hcreate.
    unfold hello_world.script, mbind, M_bind, load_dotenv_override, getenv,
      OpenAI, create, lift.
    cbn [environ dotenv_file trace].
    destruct (truthy ((dotenv_file w ∪ environ w) !! "OPENAI_API_KEY"));
      cbn [negb print]; rewrite Hinit; cbv beta iota;
      rewrite Hcreate, Hfirst; cbv beta iota; cbn [print];
      rewrite Hcreate, Hfirst; cbv beta iota;
      cbn [fst snd trace emit print];
      (split; [reflexivity | now rewrite <- !app_assoc]).
Qed.

Lemma text_is_first_choice_content_witness :
  let r := Stub.reply [Some "first"; Some "second"; None] None in
  let lib := Stub.library (Ok r) (Some (Some "News")) (Some "Markets rally") in
  let w := Stub.world [("OPENAI_API_KEY", "sk-test"); ("GOOGLE_API_KEY", "g-test")] [] in
  (openai_client.test_openai lib w).1 = Ok (Some "first") /\
  (web_scraper.summarize lib "https://www.cnbc.com" w).1 = Ok (Some "first") /\
  (openai_client.test_gemini lib w).1 = Ok (Some "first") /\
  (openai_client.test_ollama_llama lib w).1 = Ok (Some "first") /\
  (token_tracking.openai_api_token_tracking_example lib w).1 = Ok (Some "first") /\
  (hello_world.script lib w).1 = Ok tt.
Proof.
  intros r lib w.
  destruct (text_is_first_choice_content lib r
              {| message := {| msg_content := Some "first" |} |}
              [ {| message := {| msg_content := Some "second" |} |};
                {| message := {| msg_content := None |} |} ] eq_refl)
    as (_ & Hopenai & Hsummarize & _ & Hgemini & Hollama & Htracking & Hhello).
  repeat apply conj.
  - apply (Hopenai w); reflexivity.
  - eapply (Hsummarize w "https://www.cnbc.com"); reflexivity.
  - apply (Hgemini w "g-test"); first [reflexivity | discriminate].
  - apply (Hollama w); intros; reflexivity.
  - apply (Htracking w Stub.char_encoding "first"
             (String.length (flatten token_tracking.messages)) 5);
      intros; reflexivity.
  - apply (Hhello w); intros; reflexivity.
Defined.

(** ** C6: the usage the backend reports *)

(** C6, as stated, fails: a payload that reports usage but whose first
    choice has no content makes [openai_api_token_tracking_example] raise
    [TypeError] while it counts the output tokens; its last line is
    "Response: None" and the usage is never shown. *)
Lemma usage_is_lost_without_content :
  let u := {| prompt_tokens := 31; completion_tokens := 11; total_tokens := 42 |} in
  let r := Stub.reply [None] (Some u) in
  let lib := Stub.library (Ok r) None None in
  let w := Stub.world [("OPENAI_API_KEY", "sk-test")] [] in
  usage r = Some u /\
  total_tokens u = (prompt_tokens u + completion_tokens u)%Z /\
  (token_tracking.openai_api_token_tracking_example lib w).1 = Raise TypeError /\
  last (trace (token_tracking.openai_api_token_tracking_example lib w).2)
  = Some (EvPrint "Response: None") /\
  ~ In (EvPrint "  Total tokens: 42")
       (trace (token_tracking.openai_api_token_tracking_example lib w).2).
Proof.
  repeat split. vm_compute. intuition discriminate.
Qed.

(** C6 (amended): the usage figures of the backend payload reach the caller
    unchanged when the first choice carries a text that the tokenizer
    encodes.  When the key is found and the backend answers the request of
    [openai_api_token_tracking_example] with such a response that reports
    usage [u] with [total_tokens = prompt_tokens + completion_tokens], the
    function prints exactly those three numbers (the last three lines of its
    output), so the total it shows is the sum of the other two. *)
Theorem usage_is_reported_unchanged (lib : Library) (w : World)
    (encoding : Encoding) (r : ChatCompletion) (c : Choice)
    (rest : list Choice) (text : string) (u : CompletionUsage)
    (input_tokens output_tokens : list Z) :
  truthy ((dotenv_file w ∪ environ w) !! "OPENAI_API_KEY") = true ->
  (forall w', OpenAI_init lib w' no_kwargs = None) ->
  encoding_for_model lib "gpt-4o-mini" = Ok encoding ->
  encode encoding (flatten token_tracking.messages) = Ok input_tokens ->
  (forall w', chat_completions_create lib w' no_kwargs "gpt-4o-mini"
                token_tracking.messages = Ok r) ->
  choices r = c :: rest ->
  msg_content (message c) = Some text ->
  encode encoding text = Ok output_tokens ->
  usage r = Some u ->
  total_tokens u = (prompt_tokens u + completion_tokens u)%Z ->
  (token_tracking.openai_api_token_tracking_example lib w).1 = Ok (Some text) /\
  trace (token_tracking.openai_api_token_tracking_example lib w).2
  = (trace w ++
     [ EvPrint "API key found!";
       EvOpenAI no_kwargs;
       EvPrint ("Input tokens: " +:+ str_int (Z.of_nat (length input_tokens)));
       EvChat no_kwargs "gpt-4o-mini" token_tracking.messages;
       EvPrint ("Response: " +:+ text);
       EvPrint ("Output tokens: " +:+ str_int (Z.of_nat (length output_tokens)));
       EvPrint (nl +:+ "Exact token usage from API:");
       EvPrint ("  Prompt tokens: " +:+ str_int (prompt_tokens u));
       EvPrint ("  Completion tokens: " +:+ str_int (completion_tokens u));
       EvPrint ("  Total tokens: "
                +:+ str_int (prompt_tokens u + completion_tokens u)) ])%list.
Proof.
  intros Hkey Hinit Henc Hin Hcreate Hchoices Htext Hout Husage Htotal.
  enough (exists w',
             token_tracking.openai_api_token_tracking_example lib w
             = (Ok (Some text), w') /\
             trace w'
             = (trace w ++
                [ EvPrint "API key found!";
                  EvOpenAI no_kwargs;
                  EvPrint ("Input tokens: "
                           +:+ str_int (Z.of_nat (length input_tokens)));
                  EvChat no_kwargs "gpt-4o-mini" token_tracking.messages;
                  EvPrint ("Response: " +:+ text);
                  EvPrint ("Output tokens: "
                           +:+ str_int (Z.of_nat (length output_tokens)));
                  EvPrint (nl +:+ "Exact token usage from API:");
                  EvPrint ("  Prompt tokens: " +:+ str_int (prompt_tokens u));
                  EvPrint ("  Completion tokens: "
                           +:+ str_int (completion_tokens u));
                  EvPrint ("  Total tokens: "
                           +:+ str_int (prompt_tokens u + completion_tokens u)) ])%list)
    as (w' & -> & Hw') by (split; [reflexivity | exact Hw']).
  assert (Hcount :
            token_tracking.calculate_input_tokens token_tracking.messages encoding
            = Ok (length input_tokens)).
  { unfold token_tracking.calculate_input_tokens.
    rewrite input_text_loop_flatten.
    change ("" +:+ flatten token_tracking.messages)
      with (flatten token_tracking.messages).
    now rewrite Hin. }
  unfold token_tracking.openai_api_token_tracking_example, mbind, M_bind,
    load_dotenv_override, getenv, print, OpenAI, create, lift, mret, M_ret,
    raise, choices_0_message_content, token_tracking.calculate_output_tokens.
  cbn [environ dotenv_file trace emit]. rewrite Hkey. cbv beta iota.
  cbn [negb]. rewrite Hinit, Henc, Hcount, Hcreate, Hchoices, Htext, Hout,
    Husage, Htotal.
  eexists. split; [reflexivity |].
  unfold emit. cbn [trace str]. repeat rewrite <- app_assoc. reflexivity.
Qed.

Lemma usage_is_reported_unchanged_witness :
  let u := {| prompt_tokens := 31; completion_tokens := 11; total_tokens := 42 |} in
  let r := Stub.reply [Some "Mkay"] (Some u) in
  let lib := Stub.library (Ok r) None None in
  let w := Stub.world [] [("OPENAI_API_KEY", "sk-test")] in
  (token_tracking.openai_api_token_tracking_example lib w).1 = Ok (Some "Mkay") /\
  last (trace (token_tracking.openai_api_token_tracking_example lib w).2)
  = Some (EvPrint "  Total tokens: 42").
Proof.
  intros u r lib w.
  destruct (usage_is_reported_unchanged lib w Stub.char_encoding r
              {| message := {| msg_content := Some "Mkay" |} |} [] "Mkay" u
              (map (fun a => Z.of_nat (nat_of_ascii a))
                 (list_ascii_of_string (flatten token_tracking.messages)))
              (map (fun a => Z.of_nat (nat_of_ascii a))
                 (list_ascii_of_string "Mkay")))
    as [Hret Htrace]; try reflexivity.
  split; [exact Hret |]. rewrite Htrace. reflexivity.
Defined.

(** ** C9: fetch_website_contents *)

(** A title tag without a single string child has [.string] equal to [None];
    [None + "\n\n"] then raises [TypeError]. *)
Example fetch_title_without_string_raises :
  let lib := Stub.library (Raise (LibraryError "unreachable"))
               (Some None) (Some "text") in
  (web_scraper.fetch_website_contents lib "http://example.org"
     (Stub.world [] [])).1 = Raise TypeError.
Proof. reflexivity. Qed.

(** C9, as stated, fails: for a page whose title is 1999 characters long the
    result is the title and one newline, 2000 characters that do not begin
    with the title followed by two newlines. *)
Lemma long_title_loses_separator :
  let title := str_mul "a" 1999 in
  let lib := Stub.library (Raise (LibraryError "unreachable"))
               (Some (Some title)) (Some "text") in
  exists s,
    (web_scraper.fetch_website_contents lib "http://example.org"
       (Stub.world [] [])).1 = Ok s /\
    s = title +:+ nl /\
    String.prefix (title +:+ nl +:+ nl) s = false.
Proof.
  eexists. split; [vm_compute; reflexivity |].
  split; vm_compute; reflexivity.
Qed.

(** C9 (amended): for a fetched page whose title tag is absent or has a
    string, [fetch_website_contents] returns the first 2000 characters of
    [title + "\n\n" + text], where [title] is the title string, or
    "No title found" without a title tag, and [text] is the text of the
    body: what [get_text(separator="\n", strip=True)] gives on the body once
    every script, style, img and input element found in it has been
    decomposed, or the empty string without a body.  The result has at most
    2000 characters; it begins with the title followed by the two newlines
    whenever these fit in 2000 characters; without a body it is the title
    and the two newlines, cut at 2000. *)
Theorem fetch_website_contents_result (lib : Library) (url : string)
    (w : World) (page title : string) :
  requests_get lib w url web_scraper.headers = Ok page ->
  match soup_title lib (BeautifulSoup lib page "html.parser") with
  | Some t => tag_string lib (BeautifulSoup lib page "html.parser") t
  | None => Some "No title found"
  end = Some title ->
  let soup := BeautifulSoup lib page "html.parser" in
  let text :=
    match soup_body lib soup with
    | Some body =>
        get_text lib
          (fold_left (decompose lib)
             (find_all lib soup body ["script"; "style"; "img"; "input"]) soup)
          body nl true
    | None => ""
    end in
  (web_scraper.fetch_website_contents lib url w).1
  = Ok (substring 0 2000 ((title +:+ nl +:+ nl) +:+ text)) /\
  String.length (substring 0 2000 ((title +:+ nl +:+ nl) +:+ text)) <= 2000 /\
  (String.length title + 2 <= 2000 ->
   String.prefix (title +:+ nl +:+ nl)
     (substring 0 2000 ((title +:+ nl +:+ nl) +:+ text)) = true) /\
  (soup_body lib soup = None ->
   (web_scraper.fetch_website_contents lib url w).1
   = Ok (substring 0 2000 (title +:+ nl +:+ nl))).
Proof.
  intros Hget Htitle soup text.
  assert (Hret : (web_scraper.fetch_website_contents lib url w).1
                 = Ok (substring 0 2000 ((title +:+ nl +:+ nl) +:+ text))).
  { unfold web_scraper.fetch_website_contents, mbind, M_bind, get.
    rewrite Hget. cbv zeta. rewrite Htitle. reflexivity. }
  split; [exact Hret |]. split; [| split].
  - rewrite length_slice. apply Nat.le_min_l.
  - intros Hfit. rewrite slice_append.
    + apply prefix_append.
    + rewrite length_append. simpl. lia.
  - intros Hbody. rewrite Hret. subst text. rewrite Hbody.
    now rewrite append_nil_r.
Qed.

Lemma fetch_website_contents_result_witness :
  let lib := Stub.library (Raise (LibraryError "unreachable"))
               None (Some "Markets rally") in
  (web_scraper.fetch_website_contents lib "https://www.cnbc.com"
     (Stub.world [] [])).1
  = Ok ("No title found" +:+ nl +:+ nl +:+ "Markets rally") /\
  String.prefix ("No title found" +:+ nl +:+ nl)
    ("No title found" +:+ nl +:+ nl +:+ "Markets rally") = true.
Proof.
  intros lib.
  destruct (fetch_website_contents_result lib "https://www.cnbc.com"
              (Stub.world [] []) "" "No title found" eq_refl eq_refl)
    as (Hret & _ & Hprefix & _).
  split; [exact Hret |]. apply Hprefix. simpl. lia.
Defined.

(** * Further properties of the scripts *)

(** ** token_tracking.py: the text that is tokenized *)

Lemma length_flatten (msgs : list Message) :
  String.length (flatten msgs)
  = sum_list (map (fun m => String.length (role m)
                            + String.length (content m) + 3) msgs).
Proof.
  induction msgs as [|m msgs IH]; [reflexivity |].
  cbn [flatten fold_right map sum_list sum_list_with].
  fold (flatten msgs). rewrite !length_append, IH. cbn. lia.
Qed.

(** X1: the text [calculate_input_tokens] hands to the tokenizer has, for
    every message, the characters of its role and of its content and three
    more (the colon, the space and the newline). *)
Theorem input_text_length (msgs : list Message) :
  String.length (token_tracking.input_text_loop msgs "")
  = sum_list (map (fun m => String.length (role m)
                            + String.length (content m) + 3) msgs).
Proof.
  rewrite input_text_loop_flatten.
  change ("" +:+ flatten msgs) with (flatten msgs).
  apply length_flatten.
Qed.

(** ** web_scraper.py *)

(** X2: [fetch_website_contents] sends exactly one GET, to the URL it was
    given and with the User-Agent header, and does nothing else that can be
    observed; a failure of the request is the failure of the function; a
    result, whatever the page, is never longer than 2000 characters. *)
Theorem fetch_website_contents_effects (lib : Library) (url : string)
    (w : World) :
  (web_scraper.fetch_website_contents lib url w).2
  = emit (EvGet url web_scraper.headers) w /\
  (forall e, requests_get lib w url web_scraper.headers = Raise e ->
             (web_scraper.fetch_website_contents lib url w).1 = Raise e) /\
  (forall s, (web_scraper.fetch_website_contents lib url w).1 = Ok s ->
             String.length s <= 2000).
Proof.
  unfold web_scraper.fetch_website_contents, mbind, M_bind, get.
  destruct (requests_get lib w url web_scraper.headers) as [page|e0];
    cbv zeta.
  - destruct (match soup_title lib (BeautifulSoup lib page "html.parser") with
              | Some t => tag_string lib (BeautifulSoup lib page "html.parser") t
              | None => Some "No title found"
              end) as [title|]; cbn.
    + repeat split; [discriminate |].
      intros s [= <-]. rewrite length_slice. apply Nat.le_min_l.
    + repeat split; discriminate.
  - cbn. repeat split; [congruence | discriminate].
Qed.

Lemma fetch_website_contents_effects_witness :
  let lib := Stub.library (Raise (LibraryError "unreachable"))
               (Some (Some (str_mul "a" 3000))) (Some "text") in
  (web_scraper.fetch_website_contents lib "http://example.org"
     (Stub.world [] [])).1 = Ok (str_mul "a" 2000) /\
  String.length (str_mul "a" 2000) <= 2000.
Proof.
  intros lib.
  assert (E : (web_scraper.fetch_website_contents lib "http://example.org"
                 (Stub.world [] [])).1 = Ok (str_mul "a" 2000))
    by (vm_compute; reflexivity).
  split; [exact E |].
  exact (proj2 (proj2 (fetch_website_contents_effects lib "http://example.org"
                         (Stub.world [] []))) _ E).
Defined.

(** X3: a page whose title tag has no string (an empty title, or a title
    with nested markup) makes [fetch_website_contents] raise [TypeError],
    although the page was fetched. *)
Theorem fetch_title_without_string (lib : Library) (url : string)
    (w : World) (page : string) (t : Tag lib) :
  requests_get lib w url web_scraper.headers = Ok page ->
  soup_title lib (BeautifulSoup lib page "html.parser") = Some t ->
  tag_string lib (BeautifulSoup lib page "html.parser") t = None ->
  web_scraper.fetch_website_contents lib url w
  = (Raise TypeError, emit (EvGet url web_scraper.headers) w).
Proof.
  intros Hget Htitle Hstring.
  unfold web_scraper.fetch_website_contents, mbind, M_bind, get.
  rewrite Hget. cbv zeta. rewrite Htitle, Hstring. reflexivity.
Qed.

Lemma fetch_title_without_string_witness :
  let lib := Stub.library (Raise (LibraryError "unreachable"))
               (Some None) (Some "text") in
  (web_scraper.fetch_website_contents lib "http://example.org"
     (Stub.world [] [])).1 = Raise TypeError.
Proof.
  intros lib.
  rewrite (fetch_title_without_string lib "http://example.org"
             (Stub.world [] []) "" true eq_refl eq_refl eq_refl).
  reflexivity.
Defined.

(** X4: [summarize] does two things at most, in this order: the GET of the
    page and one request to gpt-4o-mini through the module-level client,
    whose conversation is [messages_for] of a text of at most 2000
    characters.  It prints nothing and spawns nothing. *)
Theorem summarize_sends_a_bounded_prompt (lib : Library) (url : string)
    (w : World) :
  exists new,
    trace (web_scraper.summarize lib url w).2 = (trace w ++ new)%list /\
    Forall bounded_prompt new /\
    (new = [EvGet url web_scraper.headers] \/
     exists website,
       new = [EvGet url web_scraper.headers;
              EvChat no_kwargs "gpt-4o-mini" (web_scraper.messages_for website)]).
Proof.
  destruct (fetch_website_contents_effects lib url w) as (Hw & _ & Hlen).
  unfold web_scraper.summarize, mbind, M_bind.
  destruct (web_scraper.fetch_website_contents lib url w) as [[website|e] w1];
    cbn [fst snd] in *; subst w1.
  - exists [EvGet url web_scraper.headers;
            EvChat no_kwargs "gpt-4o-mini" (web_scraper.messages_for website)].
    unfold create, lift.
    destruct (chat_completions_create lib _ no_kwargs "gpt-4o-mini" _);
      cbn [fst snd trace emit]; (split; [now rewrite <- app_assoc |]);
      (split; [| right; eauto]);
      repeat constructor; eauto.
  - exists [EvGet url web_scraper.headers]. cbn.
    split; [reflexivity |]. split; [| now left]. now repeat constructor.
Qed.

(** X5: without a page there is no request: when [fetch_website_contents]
    raises (the GET failed, or the title has no string), [summarize] raises
    the same exception and the backend is not called. *)
Theorem summarize_needs_the_page (lib : Library) (url : string) (w : World)
    (e : exn) :
  (web_scraper.fetch_website_contents lib url w).1 = Raise e ->
  (web_scraper.summarize lib url w).1 = Raise e /\
  trace (web_scraper.summarize lib url w).2
  = (trace w ++ [EvGet url web_scraper.headers])%list.
Proof.
  intros Hfetch.
  destruct (fetch_website_contents_effects lib url w) as (Hw & _ & _).
  unfold web_scraper.summarize, mbind, M_bind.
  destruct (web_scraper.fetch_website_contents lib url w) as [r w1].
  cbn [fst snd] in *. subst r w1. split; reflexivity.
Qed.

Lemma summarize_needs_the_page_witness :
  let lib := Stub.library (Ok (Stub.reply [Some "never asked"] None))
               (Some None) (Some "text") in
  let w := Stub.world [] [] in
  (web_scraper.summarize lib "http://example.org" w).1 = Raise TypeError /\
  chat_calls (trace (web_scraper.summarize lib "http://example.org" w).2) = 0.
Proof.
  intros lib w.
  destruct (summarize_needs_the_page lib "http://example.org" w TypeError
              eq_refl) as [Hret Htrace].
  split; [exact Hret |]. rewrite Htrace. reflexivity.
Defined.

(** ** openai_client.py *)

(** X6: [test_gemini] never builds a client or sends a request without a
    key: every client and request it produces carries the non-empty value of
    [GOOGLE_API_KEY] as key and the Gemini endpoint as base URL. *)
Theorem test_gemini_uses_the_google_key (lib : Library) (w : World) :
  exists new,
    trace (openai_client.test_gemini lib w).2 = (trace w ++ new)%list /\
    Forall (fun e =>
              match e with
              | EvOpenAI c | EvChat c _ _ =>
                  c = {| api_key := environ w !! "GOOGLE_API_KEY";
                         base_url := Some openai_client.GEMINI_BASE_URL |} /\
                  truthy (environ w !! "GOOGLE_API_KEY") = true
              | _ => True
              end) new.
Proof.
  unfold openai_client.test_gemini, mbind, M_bind, getenv.
  destruct (truthy (environ w !! "GOOGLE_API_KEY")) eqn:Hkey; cbn [negb].
  - unfold print, OpenAI.
    destruct (OpenAI_init lib _ _) as [e|].
    + eexists. split; [cbn; rewrite <- app_assoc; reflexivity |].
      repeat constructor.
    + unfold create, lift.
      destruct (chat_completions_create lib _ _ _ _) as [r|e];
        (eexists; split; [cbn; rewrite <- !app_assoc; reflexivity |]);
        repeat constructor.
  - eexists. split; [reflexivity |]. repeat constructor.
Qed.

(** X7: when [ollama pull] returns a non-zero code, [test_ollama_llama] and
    [test_ollama_deepseek] raise [CalledProcessError] with that code, and the
    model is not asked: the trace stops at the pull. *)
Theorem failed_pull_stops_the_test (lib : Library) (w : World) (rc : Z) :
  accepts_explicit_key lib ->
  (forall w' argv, subprocess_run lib w' argv = Ok rc) ->
  rc <> 0%Z ->
  let ollama := {| api_key := Some "ollama";
                   base_url := Some openai_client.OLLAMA_BASE_URL |} in
  ((openai_client.test_ollama_llama lib w).1 = Raise (CalledProcessError rc) /\
   trace (openai_client.test_ollama_llama lib w).2
   = (trace w ++ [ EvOpenAI ollama;
                   EvPrint "Pulling llama3.2 model...";
                   EvRun ["ollama"; "pull"; "llama3.2"] true ])%list) /\
  ((openai_client.test_ollama_deepseek lib w).1 = Raise (CalledProcessError rc) /\
   trace (openai_client.test_ollama_deepseek lib w).2
   = (trace w ++ [ EvOpenAI ollama;
                   EvPrint "Pulling deepseek-r1:1.5b model...";
                   EvRun ["ollama"; "pull"; "deepseek-r1:1.5b"] true ])%list).
Proof.
  intros Hsdk Hrun Hrc ollama.
  assert (Hne : (rc =? 0)%Z = false) by now apply Z.eqb_neq.
  unfold openai_client.test_ollama_llama, openai_client.test_ollama_deepseek,
    openai_client.ollama_client, mbind, M_bind, OpenAI, print, run.
  rewrite !(Hsdk w _ "ollama") by (reflexivity || discriminate).
  rewrite !Hrun, Hne. cbn [andb negb fst snd trace emit].
  rewrite <- !app_assoc. repeat split.
Qed.

Lemma failed_pull_stops_the_test_witness :
  let lib :=
    {| OpenAI_init := fun _ _ => None;
       chat_completions_create := fun _ _ _ _ =>
         Ok (Stub.reply [Some "never asked"] None);
       requests_get := fun _ _ _ => Ok "";
       subprocess_run := fun _ _ => Ok 1%Z;
       encoding_for_model := fun _ => Ok Stub.char_encoding;
       genai_generate_content := fun _ _ _ => Ok None;
       anthropic_messages_create := fun _ _ _ _ => Ok [];
       Soup := unit; Tag := unit;
       BeautifulSoup := fun _ _ => tt;
       soup_title := fun _ => None;
       soup_body := fun _ => None;
       tag_string := fun _ _ => None;
       find_all := fun _ _ _ => [];
       decompose := fun s _ => s;
       get_text := fun _ _ _ _ => "" |} in
  (openai_client.test_ollama_llama lib (Stub.world [] [])).1
  = Raise (CalledProcessError 1) /\
  chat_calls (trace (openai_client.test_ollama_llama lib (Stub.world [] [])).2)
  = 0.
Proof.
  intros lib.
  assert (Hsdk : accepts_explicit_key lib) by (intros ? ? ? ? ?; reflexivity).
  destruct (failed_pull_stops_the_test lib (Stub.world [] []) 1 Hsdk
              (fun _ _ => eq_refl) ltac:(discriminate))
    as [[Hret Htrace] _].
  split; [exact Hret |]. rewrite Htrace. reflexivity.
Defined.

(** X8: a response without choices is an [IndexError]: [test_openai] and
    [summarize] raise it after their one request, and a section of
    multi_provider_llm.py raises it without printing anything. *)
Theorem no_choice_is_an_index_error (lib : Library) (r : ChatCompletion) :
  choices r = [] ->
  (forall w,
     truthy (environ w !! "OPENAI_API_KEY") = true ->
     OpenAI_init lib (emit (EvPrint "API key found!") w) no_kwargs = None ->
     chat_completions_create lib
       (emit (EvOpenAI no_kwargs) (emit (EvPrint "API key found!") w))
       no_kwargs "gpt-5-nano" openai_client.fun_fact = Ok r ->
     (openai_client.test_openai lib w).1 = Raise IndexError /\
     chat_calls (trace (openai_client.test_openai lib w).2)
     = S (chat_calls (trace w))) /\
  (forall w url website w',
     web_scraper.fetch_website_contents lib url w = (Ok website, w') ->
     chat_completions_create lib w' no_kwargs "gpt-4o-mini"
       (web_scraper.messages_for website) = Ok r ->
     (web_scraper.summarize lib url w).1 = Raise IndexError) /\
  (forall w client model,
     chat_completions_create lib w client model multi_provider_llm.tell_a_joke
     = Ok r ->
     multi_provider_llm.ask lib client model w
     = (Raise IndexError,
        emit (EvChat client model multi_provider_llm.tell_a_joke) w)).
Proof.
  intros Hchoices.
  assert (Hnone : choices_0_message_content r = Raise IndexError)
    by (unfold choices_0_message_content; now rewrite Hchoices).
  split; [| split].
  - intros w Hkey Hinit Hcreate.
    unfold openai_client.test_openai, mbind, M_bind, getenv.
    rewrite Hkey. cbn [negb]. unfold print, OpenAI. rewrite Hinit.
    unfold create. rewrite Hcreate. unfold lift. rewrite Hnone.
    cbn [fst snd trace emit]. split; [reflexivity |].
    rewrite !chat_calls_app. cbn. lia.
  - intros w url website w' Hfetch Hcreate.
    unfold web_scraper.summarize, mbind, M_bind. rewrite Hfetch.
    unfold create. rewrite Hcreate. unfold lift. now rewrite Hnone.
  - intros w client model Hcreate.
    unfold multi_provider_llm.ask, mbind, M_bind, create.
    rewrite Hcreate. unfold lift. now rewrite Hnone.
Qed.

Lemma no_choice_is_an_index_error_witness :
  let r := Stub.reply [] None in
  let lib := Stub.library (Ok r) None (Some "text") in
  let w := Stub.world [("OPENAI_API_KEY", "sk-test")] [] in
  (openai_client.test_openai lib w).1 = Raise IndexError /\
  (web_scraper.summarize lib "http://example.org" w).1 = Raise IndexError.
Proof.
  intros r lib w.
  destruct (no_choice_is_an_index_error lib r eq_refl)
    as (Hopenai & Hsummarize & _).
  split.
  - apply (Hopenai w); reflexivity.
  - eapply (Hsummarize w "http://example.org"); reflexivity.
Defined.

(** [try ... except] in the reasoning on appended events *)
Lemma emits_try {A} (P Q R : list Event -> Prop) (body : M A)
    (handler : exn -> M A) :
  emits P body ->
  (forall e, emits Q (handler e)) ->
  (forall t, P t -> R t) ->
  (forall t1 t2, P t1 -> Q t2 -> R (t1 ++ t2)%list) ->
  emits R (try_except body handler).
Proof.
  intros Hbody Hhandler Hstop Hseq w.
  destruct (Hbody w) as (t1 & Ht1 & HP).
  unfold try_except. destruct (body w) as [[a|e] w1]; cbn [fst snd] in *.
  - exists t1. auto.
  - destruct (Hhandler e w1) as (t2 & Ht2 & HQ).
    exists (t1 ++ t2)%list. rewrite Ht2, Ht1, <- app_assoc. auto.
Qed.

Lemma calls_try {A} (n : nat) (body : M A) (handler : exn -> M A) :
  calls_le n body ->
  (forall e, calls_le 0 (handler e)) ->
  calls_le n (try_except body handler).
Proof.
  intros Hbody Hhandler.
  apply (emits_try (fun t => chat_calls t <= n) (fun t => chat_calls t <= 0));
    auto.
  intros t1 t2 H1 H2. rewrite chat_calls_app. lia.
Qed.

(** A handler that only prints turns every failure into a normal return. *)
Lemma try_except_print_returns (body : M unit) (line : exn -> string)
    (w : World) :
  (try_except body (fun e => print (line e)) w).1 = Ok tt.
Proof.
  unfold try_except. destruct (body w) as [[[]|e] w']; reflexivity.
Qed.

Lemma ollama_section_calls (lib : Library) (str_exn : exn -> string)
    (test : M (option string)) :
  calls_le 1 test ->
  calls_le 1
    (try_except (test ≫= openai_client.print_response)
       (fun e => print ("Error: " +:+ str_exn e +:+ nl))).
Proof.
  intros Htest. apply calls_try.
  - apply (calls_bind 1 0); [exact Htest |].
    intros result. unfold openai_client.print_response. no_calls.
  - intros e. no_calls.
Qed.

(** X9: the [__main__] block of openai_client.py sends at most four
    completion requests, one per test, whatever the libraries do. *)
Theorem openai_client_main_requests (lib : Library) (str_exn : exn -> string) :
  calls_le 4 (openai_client.main lib str_exn).
Proof.
  assert (H1 : calls_le 1 (openai_client.test_openai lib))
    by (unfold openai_client.test_openai; count_calls).
  assert (H2 : calls_le 1 (openai_client.test_gemini lib))
    by (unfold openai_client.test_gemini; count_calls).
  assert (H3 : calls_le 1 (openai_client.test_ollama_llama lib))
    by (unfold openai_client.test_ollama_llama, openai_client.ollama_client;
        count_calls).
  assert (H4 : calls_le 1 (openai_client.test_ollama_deepseek lib))
    by (unfold openai_client.test_ollama_deepseek, openai_client.ollama_client;
        count_calls).
  pose proof (ollama_section_calls lib str_exn _ H3) as H5.
  pose proof (ollama_section_calls lib str_exn _ H4) as H6.
  unfold openai_client.main.
  do 3 (apply calls_bind_0; [no_calls | intros ?]).
  apply calls_bind_1; [exact H1 | intros result1].
  apply calls_bind_0; [unfold openai_client.print_response; no_calls | intros ?].
  do 3 (apply calls_bind_0; [no_calls | intros ?]).
  apply calls_bind_1; [exact H2 | intros result2].
  apply calls_bind_0; [unfold openai_client.print_response; no_calls | intros ?].
  do 3 (apply calls_bind_0; [no_calls | intros ?]).
  apply calls_bind_1; [exact H5 | intros ?].
  do 3 (apply calls_bind_0; [no_calls | intros ?]).
  exact H6.
Qed.

Lemma run_ok_eta {A} (m : M A) (w : World) (a : A) :
  (m w).1 = Ok a -> m w = (Ok a, (m w).2).
Proof. destruct (m w) as [r w']. cbn. now intros ->. Qed.

(** A guarded test that starts by building a client has the construction
    as its first event, whether or not it goes well. *)
Lemma guarded_test_starts (lib : Library) (line : exn -> string) (c : Client)
    (k : Client -> M (option string)) (w : World) :
  (forall c', emits (fun _ => True) (k c')) ->
  exists tail,
    trace (try_except ((OpenAI lib c ≫= k) ≫= openai_client.print_response)
             (fun e => print (line e)) w).2
    = (trace w ++ EvOpenAI c :: tail)%list.
Proof.
  intros Hk. unfold try_except. rewrite !bind_unfold. unfold OpenAI.
  destruct (OpenAI_init lib w c) as [e|].
  - exists [EvPrint (line e)]. cbn [snd print trace emit].
    now rewrite <- app_assoc.
  - destruct (Hk c (emit (EvOpenAI c) w)) as (t1 & Ht1 & _).
    destruct (k c (emit (EvOpenAI c) w)) as [[result|e] w1]; cbn [snd] in Ht1.
    + unfold openai_client.print_response.
      destruct (truthy result); cbn [snd print mret M_ret trace emit];
        rewrite Ht1; cbn [trace emit]; rewrite <- !app_assoc;
        eexists; reflexivity.
    + cbn [snd print trace emit]. rewrite Ht1. cbn [trace emit].
      rewrite <- !app_assoc. eexists; reflexivity.
Qed.

(** X10: with no OpenAI key and no Google key, the [__main__] block of
    openai_client.py never fails, whatever the libraries do.  The two key
    checks print their message; the Llama test is run under its
    [try]/[except], so a failure of it is caught and printed; then, in
    every case, the Deepseek banner is printed and the Deepseek test is run
    under its own [try]/[except] from the world the Llama section left: the
    final world is the one that run leaves.  Both tests begin by building
    the Ollama client. *)
Theorem openai_client_main_survives (lib : Library) (str_exn : exn -> string)
    (w : World) :
  truthy (environ w !! "OPENAI_API_KEY") = false ->
  truthy (environ w !! "GOOGLE_API_KEY") = false ->
  let guarded := fun test : M (option string) =>
    try_except (test ≫= openai_client.print_response)
      (fun e => print ("Error: " +:+ str_exn e +:+ nl)) in
  let ollama := {| api_key := Some "ollama";
                   base_url := Some openai_client.OLLAMA_BASE_URL |} in
  let w1 :=
    emit_all
      [ EvPrint (str_mul "=" 60); EvPrint "OpenAI API Test";
        EvPrint (str_mul "=" 60); EvPrint "No API key was found!";
        EvPrint (str_mul "=" 60); EvPrint "Google Gemini Test";
        EvPrint (str_mul "=" 60); EvPrint "No Google API key was found!";
        EvPrint (str_mul "=" 60); EvPrint "Ollama Llama 3.2 Test";
        EvPrint (str_mul "=" 60) ] w in
  let w2 := (guarded (openai_client.test_ollama_llama lib) w1).2 in
  let w3 :=
    emit_all
      [ EvPrint (str_mul "=" 60); EvPrint "Ollama Deepseek R1 Test";
        EvPrint (str_mul "=" 60) ] w2 in
  openai_client.main lib str_exn w
  = (Ok tt, (guarded (openai_client.test_ollama_deepseek lib) w3).2) /\
  (exists llama, trace w2 = (trace w1 ++ EvOpenAI ollama :: llama)%list) /\
  (exists deepseek,
     trace (guarded (openai_client.test_ollama_deepseek lib) w3).2
     = (trace w3 ++ EvOpenAI ollama :: deepseek)%list).
Proof.
  intros Hopenai Hgoogle guarded ollama w1 w2 w3.
  assert (Hrest : forall model (c' : Client),
            emits (fun _ => True)
              (print ("Pulling " +:+ model +:+ " model...");;
               run lib ["ollama"; "pull"; model] true;;
               response ← create lib c' model openai_client.fun_fact;
               lift (choices_0_message_content response))).
  { intros model c'.
    repeat first
      [ apply (emits_bind (fun _ => True) (fun _ => True)); auto; [| intros ?]
      | emits_prim; exact I ]. }
  split; [| split].
  - unfold openai_client.main.
    rewrite !bind_print.
    erewrite bind_run by (apply test_openai_missing_key; exact Hopenai).
    erewrite bind_run by reflexivity.
    rewrite !bind_print.
    erewrite bind_run by (apply test_gemini_missing_key; exact Hgoogle).
    erewrite bind_run by reflexivity.
    rewrite !bind_print.
    erewrite bind_run by (apply run_ok_eta, try_except_print_returns).
    rewrite !bind_print.
    exact (run_ok_eta _ _ _
             (try_except_print_returns _
                (fun e => "Error: " +:+ str_exn e +:+ nl) _)).
  - exact (guarded_test_starts lib (fun e => "Error: " +:+ str_exn e +:+ nl)
             ollama _ w1 (Hrest "llama3.2")).
  - exact (guarded_test_starts lib (fun e => "Error: " +:+ str_exn e +:+ nl)
             ollama _ w3 (Hrest "deepseek-r1:1.5b")).
Qed.

Lemma openai_client_main_survives_witness :
  let lib :=
    {| OpenAI_init := fun _ _ => Some (LibraryError "no client");
       chat_completions_create := fun _ _ _ _ => Raise (LibraryError "down");
       requests_get := fun _ _ _ => Raise (LibraryError "down");
       subprocess_run := fun _ _ => Raise (LibraryError "ollama not found");
       encoding_for_model := fun _ => Raise (LibraryError "none");
       genai_generate_content := fun _ _ _ => Raise (LibraryError "down");
       anthropic_messages_create := fun _ _ _ _ => Raise (LibraryError "down");
       Soup := unit; Tag := unit;
       BeautifulSoup := fun _ _ => tt;
       soup_title := fun _ => None;
       soup_body := fun _ => None;
       tag_string := fun _ _ => None;
       find_all := fun _ _ _ => [];
       decompose := fun s _ => s;
       get_text := fun _ _ _ _ => "" |} in
  (openai_client.main lib (fun _ => "failed") (Stub.world [] [])).1 = Ok tt.
Proof.
  intros lib.
  rewrite (proj1 (openai_client_main_survives lib (fun _ => "failed")
                    (Stub.world [] []) eq_refl eq_refl)).
  reflexivity.
Defined.

(** ** token_tracking.py: the example, case by case *)

(** The example up to the answer of the backend: the key is found, the
    client is built, the input is counted and the request is sent. *)
Lemma token_tracking_until_response (lib : Library) (w : World)
    (encoding : Encoding) (r : ChatCompletion) (n : nat)
    (k : Encoding -> ChatCompletion -> M (option string)) :
  truthy ((dotenv_file w ∪ environ w) !! "OPENAI_API_KEY") = true ->
  (forall w', OpenAI_init lib w' no_kwargs = None) ->
  encoding_for_model lib "gpt-4o-mini" = Ok encoding ->
  token_tracking.calculate_input_tokens token_tracking.messages encoding = Ok n ->
  (forall w', chat_completions_create lib w' no_kwargs "gpt-4o-mini"
                token_tracking.messages = Ok r) ->
  exists w1,
    trace w1
    = (trace w ++
       [ EvPrint "API key found!";
         EvOpenAI no_kwargs;
         EvPrint ("Input tokens: " +:+ str_int (Z.of_nat n));
         EvChat no_kwargs "gpt-4o-mini" token_tracking.messages ])%list /\
    (load_dotenv_override;;
     api_key ← getenv "OPENAI_API_KEY";
     if negb (truthy api_key) then print "No API key was found!";; mret None
     else
       print "API key found!";;
       openai ← OpenAI lib no_kwargs;
       encoding ← lift (encoding_for_model lib "gpt-4o-mini");
       input_tokens ← lift (token_tracking.calculate_input_tokens
                              token_tracking.messages encoding);
       print ("Input tokens: " +:+ str_int (Z.of_nat input_tokens));;
       response ← create lib openai "gpt-4o-mini" token_tracking.messages;
       k encoding response) w
    = k encoding r w1.
Proof.
  intros Hkey Hinit Henc Hcount Hcreate.
  eexists. split; [| unfold mbind, M_bind, load_dotenv_override, getenv, print,
                       OpenAI, create, lift;
                     cbn [environ dotenv_file trace emit]; rewrite Hkey;
                     cbn [negb]; rewrite Hinit, Henc, Hcount, Hcreate;
                     reflexivity ].
  cbn [trace emit]. rewrite <- !app_assoc. reflexivity.
Qed.

(** X11: a backend that reports no usage is no error for
    [openai_api_token_tracking_example]: it returns the answer, and its
    output ends with the output token estimate; no usage line is printed. *)
Theorem absent_usage_is_not_reported (lib : Library) (w : World)
    (encoding : Encoding) (r : ChatCompletion) (c : Choice)
    (rest : list Choice) (text : string) (input_tokens output_tokens : nat) :
  truthy ((dotenv_file w ∪ environ w) !! "OPENAI_API_KEY") = true ->
  (forall w', OpenAI_init lib w' no_kwargs = None) ->
  encoding_for_model lib "gpt-4o-mini" = Ok encoding ->
  token_tracking.calculate_input_tokens token_tracking.messages encoding
  = Ok input_tokens ->
  (forall w', chat_completions_create lib w' no_kwargs "gpt-4o-mini"
                token_tracking.messages = Ok r) ->
  choices r = c :: rest ->
  msg_content (message c) = Some text ->
  token_tracking.calculate_output_tokens text encoding = Ok output_tokens ->
  usage r = None ->
  (token_tracking.openai_api_token_tracking_example lib w).1 = Ok (Some text) /\
  trace (token_tracking.openai_api_token_tracking_example lib w).2
  = (trace w ++
     [ EvPrint "API key found!";
       EvOpenAI no_kwargs;
       EvPrint ("Input tokens: " +:+ str_int (Z.of_nat input_tokens));
       EvChat no_kwargs "gpt-4o-mini" token_tracking.messages;
       EvPrint ("Response: " +:+ text);
       EvPrint ("Output tokens: " +:+ str_int (Z.of_nat output_tokens)) ])%list.
Proof.
  intros Hkey Hinit Henc Hin Hcreate Hchoices Htext Hout Husage.
  unfold token_tracking.openai_api_token_tracking_example.
  destruct (token_tracking_until_response lib w encoding r input_tokens
              (fun encoding response =>
                 response_content ← lift (choices_0_message_content response);
                 print ("Response: " +:+ str response_content);;
                 output_tokens ←
                   match response_content with
                   | Some text =>
                       lift (token_tracking.calculate_output_tokens text encoding)
                   | None => raise TypeError
                   end;
                 print ("Output tokens: " +:+ str_int (Z.of_nat output_tokens));;
                 match usage response with
                 | Some u =>
                     print (nl +:+ "Exact token usage from API:");;
                     print ("  Prompt tokens: " +:+ str_int (prompt_tokens u));;
                     print ("  Completion tokens: "
                            +:+ str_int (completion_tokens u));;
                     print ("  Total tokens: " +:+ str_int (total_tokens u))
                 | None => mret tt
                 end;;
                 mret response_content)
              Hkey Hinit Henc Hin Hcreate) as (w1 & Hw1 & ->).
  unfold mbind, M_bind, lift, print, mret, M_ret, choices_0_message_content.
  rewrite Hchoices, Htext, Hout, Husage. cbn [fst snd trace emit str].
  split; [reflexivity |]. rewrite Hw1, <- !app_assoc. reflexivity.
Qed.

Lemma absent_usage_is_not_reported_witness :
  let r := Stub.reply [Some "Mkay"] None in
  let lib := Stub.library (Ok r) None None in
  let w := Stub.world [("OPENAI_API_KEY", "sk-test")] [] in
  (token_tracking.openai_api_token_tracking_example lib w).1 = Ok (Some "Mkay") /\
  last (trace (token_tracking.openai_api_token_tracking_example lib w).2)
  = Some (EvPrint "Output tokens: 4").
Proof.
  intros r lib w.
  destruct (absent_usage_is_not_reported lib w Stub.char_encoding r
              {| message := {| msg_content := Some "Mkay" |} |} [] "Mkay"
              (String.length (flatten token_tracking.messages)) 4)
    as [Hret Htrace]; try reflexivity.
  split; [exact Hret |]. rewrite Htrace. reflexivity.
Defined.

(** X12: an answer whose first choice has no content makes
    [openai_api_token_tracking_example] raise [TypeError] when it counts the
    output tokens: by then the request is sent and "Response: None" is
    printed. *)
Theorem empty_content_is_a_type_error (lib : Library) (w : World)
    (encoding : Encoding) (r : ChatCompletion) (c : Choice)
    (rest : list Choice) (input_tokens : nat) :
  truthy ((dotenv_file w ∪ environ w) !! "OPENAI_API_KEY") = true ->
  (forall w', OpenAI_init lib w' no_kwargs = None) ->
  encoding_for_model lib "gpt-4o-mini" = Ok encoding ->
  token_tracking.calculate_input_tokens token_tracking.messages encoding
  = Ok input_tokens ->
  (forall w', chat_completions_create lib w' no_kwargs "gpt-4o-mini"
                token_tracking.messages = Ok r) ->
  choices r = c :: rest ->
  msg_content (message c) = None ->
  (token_tracking.openai_api_token_tracking_example lib w).1 = Raise TypeError /\
  trace (token_tracking.openai_api_token_tracking_example lib w).2
  = (trace w ++
     [ EvPrint "API key found!";
       EvOpenAI no_kwargs;
       EvPrint ("Input tokens: " +:+ str_int (Z.of_nat input_tokens));
       EvChat no_kwargs "gpt-4o-mini" token_tracking.messages;
       EvPrint "Response: None" ])%list.
Proof.
  intros Hkey Hinit Henc Hin Hcreate Hchoices Htext.
  unfold token_tracking.openai_api_token_tracking_example.
  destruct (token_tracking_until_response lib w encoding r input_tokens
              (fun encoding response =>
                 response_content ← lift (choices_0_message_content response);
                 print ("Response: " +:+ str response_content);;
                 output_tokens ←
                   match response_content with
                   | Some text =>
                       lift (token_tracking.calculate_output_tokens text encoding)
                   | None => raise TypeError
                   end;
                 print ("Output tokens: " +:+ str_int (Z.of_nat output_tokens));;
                 match usage response with
                 | Some u =>
                     print (nl +:+ "Exact token usage from API:");;
                     print ("  Prompt tokens: " +:+ str_int (prompt_tokens u));;
                     print ("  Completion tokens: "
                            +:+ str_int (completion_tokens u));;
                     print ("  Total tokens: " +:+ str_int (total_tokens u))
                 | None => mret tt
                 end;;
                 mret response_content)
              Hkey Hinit Henc Hin Hcreate) as (w1 & Hw1 & ->).
  unfold mbind, M_bind, lift, print, raise, choices_0_message_content.
  rewrite Hchoices, Htext. cbn [fst snd trace emit str].
  split; [reflexivity |]. rewrite Hw1, <- !app_assoc. reflexivity.
Qed.

Lemma empty_content_is_a_type_error_witness :
  let r := Stub.reply [None; Some "second"] None in
  let lib := Stub.library (Ok r) None None in
  let w := Stub.world [("OPENAI_API_KEY", "sk-test")] [] in
  (token_tracking.openai_api_token_tracking_example lib w).1 = Raise TypeError.
Proof.
  intros r lib w.
  refine (proj1 (empty_content_is_a_type_error lib w Stub.char_encoding r
                   {| message := {| msg_content := None |} |}
                   [ {| message := {| msg_content := Some "second" |} |} ]
                   (String.length (flatten token_tracking.messages))
                   _ _ _ _ _ _ _));
    intros; reflexivity.
Defined.

(** X13: the input is counted before anything is sent: when the tokenizer
    cannot be loaded, or rejects the conversation text,
    [openai_api_token_tracking_example] raises that error and the backend is
    never called. *)
Theorem tokenizer_failure_precedes_the_request (lib : Library) (w : World)
    (e : exn) :
  truthy ((dotenv_file w ∪ environ w) !! "OPENAI_API_KEY") = true ->
  (forall w', OpenAI_init lib w' no_kwargs = None) ->
  (encoding_for_model lib "gpt-4o-mini" = Raise e \/
   exists encoding,
     encoding_for_model lib "gpt-4o-mini" = Ok encoding /\
     token_tracking.calculate_input_tokens token_tracking.messages encoding
     = Raise e) ->
  (token_tracking.openai_api_token_tracking_example lib w).1 = Raise e /\
  trace (token_tracking.openai_api_token_tracking_example lib w).2
  = (trace w ++ [ EvPrint "API key found!"; EvOpenAI no_kwargs ])%list.
Proof.
  intros Hkey Hinit Hfail.
  unfold token_tracking.openai_api_token_tracking_example, mbind, M_bind,
    load_dotenv_override, getenv, print, OpenAI, lift.
  cbn [environ dotenv_file trace emit]. rewrite Hkey. cbn [negb].
  rewrite Hinit.
  destruct Hfail as [Henc | (encoding & Henc & Hcount)]; rewrite Henc;
    [| rewrite Hcount]; cbn [fst snd trace emit];
    (split; [reflexivity | now rewrite <- ?app_assoc]).
Qed.

Lemma tokenizer_failure_precedes_the_request_witness :
  let refuse := {| encode := fun _ => Raise (LibraryError "special token") |} in
  let lib :=
    {| OpenAI_init := fun _ _ => None;
       chat_completions_create := fun _ _ _ _ =>
         Ok (Stub.reply [Some "never asked"] None);
       requests_get := fun _ _ _ => Ok "";
       subprocess_run := fun _ _ => Ok 0%Z;
       encoding_for_model := fun _ => Ok refuse;
       genai_generate_content := fun _ _ _ => Ok None;
       anthropic_messages_create := fun _ _ _ _ => Ok [];
       Soup := unit; Tag := unit;
       BeautifulSoup := fun _ _ => tt;
       soup_title := fun _ => None;
       soup_body := fun _ => None;
       tag_string := fun _ _ => None;
       find_all := fun _ _ _ => [];
       decompose := fun s _ => s;
       get_text := fun _ _ _ _ => "" |} in
  let w := Stub.world [("OPENAI_API_KEY", "sk-test")] [] in
  (token_tracking.openai_api_token_tracking_example lib w).1
  = Raise (LibraryError "special token") /\
  chat_calls (trace (token_tracking.openai_api_token_tracking_example lib w).2)
  = 0.
Proof.
  intros refuse lib w.
  destruct (tokenizer_failure_precedes_the_request lib w
              (LibraryError "special token") eq_refl (fun _ => eq_refl)
              (or_intror (ex_intro _ refuse (conj eq_refl eq_refl))))
    as [Hret Htrace].
  split; [exact Hret |]. rewrite Htrace. reflexivity.
Defined.

(** ** token_tracking.py: the tokenization example *)

Lemma print_tokens_run (decode : Encoding -> list Z -> result string)
    (encoding : Encoding) (text_of : Z -> string) (tokens : list Z) :
  (forall t, decode encoding [t] = Ok (text_of t)) ->
  forall (i : nat) (w : World),
    (token_tracking.print_tokens decode encoding i tokens w).1 = Ok tt /\
    trace (token_tracking.print_tokens decode encoding i tokens w).2
    = (trace w
       ++ imap (fun j t => EvPrint ("Token " +:+ str_int (Z.of_nat (i + j))
                                    +:+ ": " +:+ text_of t)) tokens)%list.
Proof.
  intros Hdecode. induction tokens as [|t tokens IH]; intros i w.
  - cbn. now rewrite app_nil_r.
  - cbn [token_tracking.print_tokens]. unfold mbind, M_bind, lift, print.
    rewrite Hdecode.
    destruct (IH (S i) (emit (EvPrint ("Token " +:+ str_int (Z.of_nat i)
                                        +:+ ": " +:+ text_of t)) w))
      as [Hret Htrace].
    split; [exact Hret |]. rewrite Htrace. cbn [trace emit imap].
    rewrite <- app_assoc, Nat.add_0_r. cbn [app]. do 2 f_equal.
    apply imap_ext. intros j t' _. cbn. now rewrite Nat.add_succ_r.
Qed.

(** X14: [basic_tokenization_example] prints the number of tokens and then
    one line per token, numbered from 0 in the order of the encoding, each
    with the text of that one token; it reaches nothing outside the
    process. *)
Theorem basic_tokenization_prints_every_token (lib : Library)
    (decode : Encoding -> list Z -> result string) (encoding : Encoding)
    (tokens : list Z) (text_of : Z -> string) (w : World) :
  encoding_for_model lib "gpt-4o-mini" = Ok encoding ->
  encode encoding "Testing Tokenomies" = Ok tokens ->
  (forall t, decode encoding [t] = Ok (text_of t)) ->
  (token_tracking.basic_tokenization_example lib decode w).1 = Ok tt /\
  trace (token_tracking.basic_tokenization_example lib decode w).2
  = (trace w
     ++ EvPrint ("Number of tokens: " +:+ str_int (Z.of_nat (length tokens)))
     :: imap (fun i t => EvPrint ("Token " +:+ str_int (Z.of_nat i)
                                  +:+ ": " +:+ text_of t)) tokens)%list.
Proof.
  intros Henc Htokens Hdecode.
  unfold token_tracking.basic_tokenization_example, mbind, M_bind, lift, print.
  rewrite Henc, Htokens.
  destruct (print_tokens_run decode encoding text_of tokens Hdecode 0
              (emit (EvPrint ("Number of tokens: "
                              +:+ str_int (Z.of_nat (length tokens)))) w))
    as [Hret Htrace].
  split; [exact Hret |]. rewrite Htrace. cbn [trace emit].
  now rewrite <- app_assoc.
Qed.

Lemma basic_tokenization_prints_every_token_witness :
  let lib := Stub.library (Raise (LibraryError "unreachable")) None None in
  let decode := fun (_ : Encoding) (ts : list Z) =>
    Ok (string_of_list_ascii (map (fun t => ascii_of_nat (Z.to_nat t)) ts)) in
  length (trace (token_tracking.basic_tokenization_example lib decode
                   (Stub.world [] [])).2) = 19 /\
  last (trace (token_tracking.basic_tokenization_example lib decode
                 (Stub.world [] [])).2) = Some (EvPrint "Token 17: s").
Proof.
  intros lib decode.
  destruct (basic_tokenization_prints_every_token lib decode Stub.char_encoding
              (map (fun a => Z.of_nat (nat_of_ascii a))
                 (list_ascii_of_string "Testing Tokenomies"))
              (fun t => String (ascii_of_nat (Z.to_nat t)) EmptyString)
              (Stub.world [] []) eq_refl eq_refl (fun _ => eq_refl))
    as [_ Htrace].
  rewrite Htrace. split; reflexivity.
Defined.

(** ** hello_world.py *)

Lemma hello_world_requests_append (lib : Library) (c : Client) :
  emits (fun _ => True)
    (response ← create lib c "gpt-4o-mini" hello_world.messages_1;
     text ← lift (choices_0_message_content response);
     print (str text);;
     response ← create lib c "gpt-4o-mini" hello_world.messages_2;
     text ← lift (choices_0_message_content response);
     print (str text)).
Proof.
  repeat first
    [ apply (emits_bind (fun _ => True) (fun _ => True)); auto; [| intros ?]
    | emits_prim; exact I ].
Qed.

(** X15: the key check of hello_world.py is advisory: whether the key is
    found or not, the script prints the one message and goes on to build the
    client. *)
Theorem hello_world_key_check_is_advisory (lib : Library) (w : World) :
  exists rest,
    trace (hello_world.script lib w).2
    = (trace w
       ++ EvPrint (if truthy ((dotenv_file w ∪ environ w) !! "OPENAI_API_KEY")
                   then "API key found!" else "No API key was found!")
       :: EvOpenAI no_kwargs :: rest)%list.
Proof.
  unfold hello_world.script.
  rewrite bind_unfold. cbn [load_dotenv_override].
  rewrite bind_unfold. cbn [getenv environ].
  rewrite bind_unfold, print_if. cbn [print negb].
  replace (if negb (truthy ((dotenv_file w ∪ environ w) !! "OPENAI_API_KEY"))
           then "No API key was found!" else "API key found!")
    with (if truthy ((dotenv_file w ∪ environ w) !! "OPENAI_API_KEY")
          then "API key found!" else "No API key was found!")
    by (now destruct (truthy _)).
  rewrite bind_unfold. unfold OpenAI.
  destruct (OpenAI_init lib _ no_kwargs) as [e|].
  - exists []. cbn [snd trace emit]. now rewrite <- app_assoc.
  - match goal with
    | |- context [mbind ?k (create lib no_kwargs ?m ?msgs) ?w1] =>
        destruct (hello_world_requests_append lib no_kwargs w1)
          as (rest & Hrest & _)
    end.
    exists rest. rewrite Hrest. cbn [trace emit].
    now rewrite <- !app_assoc.
Qed.

(** X16: hello_world.py stops at the first failure: when its first request
    raises, the script ends with that exception and the second request, the
    one with the system prompt, is never sent. *)
Theorem hello_world_stops_at_first_failure (lib : Library) (w : World)
    (e : exn) :
  (forall w', OpenAI_init lib w' no_kwargs = None) ->
  (forall w', chat_completions_create lib w' no_kwargs "gpt-4o-mini"
                hello_world.messages_1 = Raise e) ->
  (hello_world.script lib w).1 = Raise e /\
  trace (hello_world.script lib w).2
  = (trace w
     ++ [ EvPrint (if truthy ((dotenv_file w ∪ environ w) !! "OPENAI_API_KEY")
                   then "API key found!" else "No API key was found!");
          EvOpenAI no_kwargs;
          EvChat no_kwargs "gpt-4o-mini" hello_world.messages_1 ])%list.
Proof.
  intros Hinit Hcreate.
  unfold hello_world.script, mbind, M_bind, load_dotenv_override, getenv,
    OpenAI, create.
  cbn [environ dotenv_file trace].
  destruct (truthy ((dotenv_file w ∪ environ w) !! "OPENAI_API_KEY"));
    cbn [negb print]; rewrite Hinit, Hcreate; cbn [fst snd trace emit];
    (split; [reflexivity | now rewrite <- !app_assoc]).
Qed.

Lemma hello_world_stops_at_first_failure_witness :
  let lib := Stub.library (Raise (LibraryError "401")) None None in
  let w := Stub.world [] [] in
  (hello_world.script lib w).1 = Raise (LibraryError "401") /\
  chat_calls (trace (hello_world.script lib w).2) = 1.
Proof.
  intros lib w.
  destruct (hello_world_stops_at_first_failure lib w (LibraryError "401")
              (fun _ => eq_refl) (fun _ => eq_refl)) as [Hret Htrace].
  split; [exact Hret |]. rewrite Htrace. reflexivity.
Defined.

(** ** multi_provider_llm.py *)

(** X17: the key checks of multi_provider_llm.py never fail and print seven
    lines, one per provider in a fixed order: that the key is not set, or
    the label followed by the first characters of the key, at most 8, 7, 2,
    3, 4, 4 and 3 of them.  The keys handed on are the values read after
    [load_dotenv]. *)
Theorem api_key_setup_shows_key_prefixes (w : World) :
  (multi_provider_llm.api_key_setup w).1
  = Ok (keys_of (dotenv_file w ∪ environ w)) /\
  trace (multi_provider_llm.api_key_setup w).2
  = (trace w ++ map (key_report (dotenv_file w ∪ environ w)) key_checks)%list /\
  (forall var label n optional key,
     (dotenv_file w ∪ environ w) !! var = Some key ->
     key <> "" ->
     exists shown,
       key_report (dotenv_file w ∪ environ w) (var, label, n, optional)
       = EvPrint (label +:+ " API Key found: " +:+ shown +:+ "...") /\
       String.prefix shown key = true /\
       String.length shown <= n).
Proof.
  rewrite api_key_setup_run. repeat split.
  intros var label n optional key Hvar Hkey.
  exists (substring 0 n key). unfold key_report. rewrite Hvar.
  apply String.eqb_neq in Hkey. rewrite Hkey.
  split; [reflexivity |]. split; [apply prefix_slice |].
  rewrite length_slice. apply Nat.le_min_l.
Qed.

Lemma api_key_setup_shows_key_prefixes_witness :
  let w := Stub.world [("OPENAI_API_KEY", "sk-proj-0123456789")] [] in
  nth_error (trace (multi_provider_llm.api_key_setup w).2) 0
  = Some (EvPrint "OpenAI API Key found: sk-proj-...") /\
  exists shown,
    key_report (dotenv_file w ∪ environ w) ("OPENAI_API_KEY", "OpenAI", 8, false)
    = EvPrint ("OpenAI API Key found: " +:+ shown +:+ "...") /\
    String.length shown <= 8.
Proof.
  intros w.
  destruct (api_key_setup_shows_key_prefixes w) as (_ & Htrace & Hshown).
  split; [rewrite Htrace; reflexivity |].
  destruct (Hshown "OPENAI_API_KEY" "OpenAI" 8 false "sk-proj-0123456789"
              eq_refl ltac:(discriminate)) as (shown & Hreport & _ & Hlen).
  exists shown. split; [exact Hreport | exact Hlen].
Defined.

(** X18: when the default client cannot be built (the SDK refuses
    [OpenAI()] without a key), multi_provider_llm.py ends right there with
    the constructor's exception: after the seven key reports nothing is
    requested from any provider. *)
Theorem script_stops_without_default_client (lib : Library) (w : World)
    (e : exn) :
  (forall w', OpenAI_init lib w' no_kwargs = Some e) ->
  (multi_provider_llm.script lib w).1 = Raise e /\
  trace (multi_provider_llm.script lib w).2
  = (trace w ++ map (key_report (dotenv_file w ∪ environ w)) key_checks
     ++ [EvOpenAI no_kwargs])%list.
Proof.
  intros Hinit. unfold multi_provider_llm.script.
  erewrite bind_run by apply api_key_setup_run.
  erewrite bind_raise.
  2: { unfold multi_provider_llm.client_setup. erewrite bind_raise; [reflexivity |].
       unfold OpenAI. rewrite Hinit. reflexivity. }
  cbn [fst snd trace emit]. split; [reflexivity |].
  now rewrite <- app_assoc.
Qed.

Lemma script_stops_without_default_client_witness :
  let lib :=
    {| OpenAI_init := fun _ _ => Some (LibraryError "api_key must be set");
       chat_completions_create := fun _ _ _ _ =>
         Ok (Stub.reply [Some "never asked"] None);
       requests_get := fun _ _ _ => Ok "";
       subprocess_run := fun _ _ => Ok 0%Z;
       encoding_for_model := fun _ => Ok Stub.char_encoding;
       genai_generate_content := fun _ _ _ => Ok None;
       anthropic_messages_create := fun _ _ _ _ => Ok [];
       Soup := unit; Tag := unit;
       BeautifulSoup := fun _ _ => tt;
       soup_title := fun _ => None;
       soup_body := fun _ => None;
       tag_string := fun _ _ => None;
       find_all := fun _ _ _ => [];
       decompose := fun s _ => s;
       get_text := fun _ _ _ _ => "" |} in
  let w := Stub.world [] [] in
  (multi_provider_llm.script lib w).1
  = Raise (LibraryError "api_key must be set") /\
  chat_calls (trace (multi_provider_llm.script lib w).2) = 0.
Proof.
  intros lib w.
  destruct (script_stops_without_default_client lib w
              (LibraryError "api_key must be set") (fun _ => eq_refl))
    as [Hret Htrace].
  split; [exact Hret |]. rewrite Htrace. reflexivity.
Defined.

(** Binds nested to the left run like binds nested to the right. *)
Lemma emits_assoc {A B C} (P : list Event -> Prop) (m : M A) (f : A -> M B)
    (g : B -> M C) :
  emits P (m ≫= (fun x => f x ≫= g)) -> emits P ((m ≫= f) ≫= g).
Proof.
  intros H w. specialize (H w). rewrite !bind_unfold in *.
  destruct (m w) as [[a|e] w']; [| exact H].
  rewrite bind_unfold in H. exact H.
Qed.

Lemma emits_ret_bind {A B} (P : list Event -> Prop) (a : A) (g : A -> M B) :
  emits P (g a) -> emits P (mret a ≫= g).
Proof. intros H w. exact (H w). Qed.

Lemma key_reports_rightly_addressed (env env' : gmap string string) :
  Forall (rightly_addressed env) (map (key_report env') key_checks).
Proof.
  unfold key_checks. cbn [map]. rewrite !key_report_eq.
  repeat constructor.
Qed.

Ltac addressed :=
  cbn;
  first [ exact I
        | split; [ repeat first [ left; reflexivity | right ] | reflexivity ] ].

(** X19: multi_provider_llm.py makes every [chat.completions.create] call
    on the client that was built for the provider of the model it names:
    the client whose [api_key] argument is what [os.getenv] returned for
    that provider's variable after [load_dotenv] ([None] when the variable
    is unset; no argument at all for the default OpenAI client; the literal
    "ollama" for Ollama) and whose [base_url] argument is that provider's
    endpoint; and it passes the joke conversation.  No call is made on a
    client built with the OpenRouter endpoint.  The statement is about the
    arguments the script passes; which credential the SDK then sends is not
    part of it. *)
Theorem script_addresses_each_provider (lib : Library) (w : World) :
  exists new,
    trace (multi_provider_llm.script lib w).2 = (trace w ++ new)%list /\
    Forall (rightly_addressed (dotenv_file w ∪ environ w)) new /\
    Forall (fun e => match e with
                     | EvChat c _ _ =>
                         base_url c <> Some multi_provider_llm.openrouter_url
                     | _ => True
                     end) new.
Proof.
  set (env := dotenv_file w ∪ environ w).
  assert (Hrest :
    emits (Forall (rightly_addressed env))
      (multi_provider_llm.client_setup lib (keys_of env)
       ≫= fun c =>
            multi_provider_llm.banner "OpenAI";;
            multi_provider_llm.ask lib (multi_provider_llm.openai c) "gpt-4.1-mini";;
            multi_provider_llm.banner "Anthropic";;
            multi_provider_llm.ask lib (multi_provider_llm.anthropic c)
              "claude-sonnet-4-5-20250929";;
            multi_provider_llm.banner "Google Gemini";;
            multi_provider_llm.ask lib (multi_provider_llm.gemini c) "gemini-2.5-pro";;
            multi_provider_llm.banner "Groq";;
            multi_provider_llm.ask lib (multi_provider_llm.groq c)
              "openai/gpt-oss-120b";;
            multi_provider_llm.banner "DeepSeek";;
            multi_provider_llm.ask lib (multi_provider_llm.deepseek c)
              "deepseek-reasoner";;
            multi_provider_llm.banner "Grok";;
            multi_provider_llm.ask lib (multi_provider_llm.grok c) "grok-4";;
            multi_provider_llm.banner "Ollama";;
            get lib "http://localhost:11434/" [];;
            run lib ["ollama"; "pull"; "llama3.2"] false;;
            multi_provider_llm.ask lib (multi_provider_llm.ollama c) "llama3.2";;
            multi_provider_llm.banner "Google Gemini (Native SDK)";;
            text ← generate_content lib "gemini-2.5-flash-lite" "tell a joke";
            print (str text);;
            multi_provider_llm.banner "Anthropic (Native SDK)";;
            blocks ← messages_create lib "claude-sonnet-4-5-20250929"
                       [ {| role := "user"; content := "tell a joke" |} ] 100;
            text ← lift (content_0_text blocks);
            print text)).
  { unfold multi_provider_llm.client_setup, multi_provider_llm.ollama_client,
      multi_provider_llm.banner, multi_provider_llm.ask.
    do 8 (apply emits_assoc; apply all_bind_OpenAI; [exact I |]; cbv beta).
    apply emits_ret_bind.
    cbn [multi_provider_llm.openai multi_provider_llm.anthropic
         multi_provider_llm.gemini multi_provider_llm.deepseek
         multi_provider_llm.groq multi_provider_llm.grok
         multi_provider_llm.ollama keys_of
         multi_provider_llm.anthropic_api_key multi_provider_llm.google_api_key
         multi_provider_llm.deepseek_api_key multi_provider_llm.groq_api_key
         multi_provider_llm.grok_api_key multi_provider_llm.openrouter_api_key].
    repeat first
      [ apply all_bind; [| intros ?]
      | emits_prim;
        first [ solve [constructor] | constructor; [addressed | constructor] ] ]. }
  unfold multi_provider_llm.script.
  erewrite bind_run by apply api_key_setup_run.
  match goal with
  | |- context [mbind ?k ?m ?w1] => destruct (Hrest w1) as (new & Hnew & Hok)
  end.
  exists (map (key_report env) key_checks ++ new)%list.
  split;
    [etransitivity; [exact Hnew |]; cbn [trace]; now rewrite <- app_assoc |].
  assert (Hall : Forall (rightly_addressed env)
                   (map (key_report env) key_checks ++ new))
    by (apply Forall_app; split;
        [apply key_reports_rightly_addressed | exact Hok]).
  split; [exact Hall |].
  eapply Forall_impl; [exact Hall |].
  intros [] Hx; try exact I. destruct Hx as [Hin _].
  unfold provider_of_model in Hin. cbn [In] in Hin.
  repeat (destruct Hin as [[= <- <-] | Hin]; [discriminate |]).
  destruct Hin.
Qed.

(** ** token_tracking.py: the main block *)

Lemma print_tokens_no_calls (decode : Encoding -> list Z -> result string)
    (encoding : Encoding) (tokens : list Z) :
  forall i, calls_le 0 (token_tracking.print_tokens decode encoding i tokens).
Proof.
  induction tokens as [|t tokens IH]; intros i;
    cbn [token_tracking.print_tokens].
  - no_calls.
  - apply calls_bind_0; [no_calls | intros text].
    apply calls_bind_0; [no_calls | intros _]. apply IH.
Qed.

(** X20: the [__main__] block of token_tracking.py sends at most one
    completion request, whatever the tokenizer and the backend do: the
    tokenization example sends none. *)
Theorem token_tracking_main_requests (lib : Library)
    (decode : Encoding -> list Z -> result string) :
  calls_le 0 (token_tracking.basic_tokenization_example lib decode) /\
  calls_le 1 (token_tracking.main lib decode).
Proof.
  assert (Hbasic : calls_le 0 (token_tracking.basic_tokenization_example lib decode)).
  { unfold token_tracking.basic_tokenization_example.
    do 3 (apply calls_bind_0; [no_calls | intros ?]).
    apply print_tokens_no_calls. }
  assert (Hexample :
            calls_le 1 (token_tracking.openai_api_token_tracking_example lib))
    by (unfold token_tracking.openai_api_token_tracking_example; count_calls).
  split; [exact Hbasic |].
  unfold token_tracking.main.
  do 3 (apply calls_bind_0; [no_calls | intros ?]).
  apply calls_bind_0; [exact Hbasic | intros ?].
  do 3 (apply calls_bind_0; [no_calls | intros ?]).
  apply calls_bind_1; [exact Hexample | intros ?]. no_calls.
Qed.
